(** * mcp-webresearch: the retry policy, the four search pipelines and the
      two request handlers of [src/index.ts], embedded in Rocq.

    The program is asynchronous JavaScript running on one event loop.  It is
    embedded as state-passing code over an explicit world: a computation
    takes the world, and gives back how it completed (normally with a value,
    or abruptly with a thrown error) together with the world it left.  The
    world holds the module-level variables of the program and, as oracles,
    what the outside answers: the launch of the browser and the opening of
    its page, page loads, the clock, the id generator, the disk.  An error
    that nobody catches ends the process, and the world keeps it on record.
    Requests are served one at a time, by a process that is running; two
    requests interleaving on the one page are outside the embedding. *)

From Stdlib Require Import String Ascii List ZArith Bool Lia DecimalString.
From Equations Require Import Equations.
Import ListNotations.

Local Open Scope string_scope.
Local Open Scope Z_scope.

(** ** Completions and the state-and-exception monad *)

(** A JavaScript [Error] object, as far as the program looks at it. *)
Record Error : Type := mkError { name : string; message : string }.

(** How an evaluation ends: [return v] / a fulfilled promise, or [throw e] /
    a rejected promise. *)
Inductive Completion (A : Type) : Type :=
| Normal (value : A)
| Thrown (error : Error).
Arguments Normal {A} value.
Arguments Thrown {A} error.

Definition M (S A : Type) : Type := S -> Completion A * S.

Definition ret {S A} (a : A) : M S A := fun s => (Normal a, s).

Definition throw {S A} (e : Error) : M S A := fun s => (Thrown e, s).

Definition bind {S A B} (m : M S A) (k : A -> M S B) : M S B :=
  fun s =>
    match m s with
    | (Normal a, s1) => k a s1
    | (Thrown e, s1) => (Thrown e, s1)
    end.

(** [try { body } catch (error) { handler error }] *)
Definition try_catch {S A} (body : M S A) (handler : Error -> M S A) : M S A :=
  fun s =>
    match body s with
    | (Normal a, s1) => (Normal a, s1)
    | (Thrown e, s1) => handler e s1
    end.

(** A statement that only changes the world. *)
Definition effect {S} (f : S -> S) : M S unit := fun s => (Normal tt, f s).

Declare Scope js_scope.
Delimit Scope js_scope with js.
Notation "x <- m ;; k" := (bind m (fun x => k))
  (at level 61, m at next level, right associativity) : js_scope.
Notation "m ;; k" := (bind m (fun _ => k))
  (at level 61, right associativity) : js_scope.
Local Open Scope js_scope.

(** [`${n}`] for an integer. *)
Definition decimal (n : Z) : string := NilZero.string_of_int (Z.to_int n).

(** ** RetryPolicy: [withRetry] (index.ts, 191-206)

    [withRetry(operation, maxRetries = 3, delay = 1000)].  The bound is an
    integer: every call in the program leaves it at its default. *)

(** What [withRetry] asks of its host besides the operation itself: the
    timer it awaits between attempts and the console it warns on. *)
Class Host (S : Type) : Type := {
  setTimeout_await : Z -> S -> S;
  console_warn : string -> S -> S
}.

Section Retry.
Context {S A : Type} `{Host S}.
Variable operation : M S A.
Variables maxRetries delay : Z.

(** The [while (attempt < maxRetries)] loop, from the value [attempt] has
    on entry.  Each further iteration raises [attempt], so the distance
    to [maxRetries] is the measure. *)
Equations? retry_loop (attempt : Z) (s : S) : Completion A * S
  by wf (Z.to_nat (maxRetries - attempt)) lt :=
  retry_loop attempt s with Z_lt_dec attempt maxRetries => {
    | right _ := (Thrown (mkError "Error" "Max retries reached"), s);
    | left _ with operation s => {
      | (Normal v, s1) := (Normal v, s1);
      | (Thrown error, s1) with Z.eq_dec (attempt + 1) maxRetries => {
        | left _ := (Thrown error, s1);
        | right _ :=
            retry_loop (attempt + 1)
              (console_warn ("Attempt " ++ decimal (attempt + 1) ++ " failed, retrying...")
                 (setTimeout_await delay s1)) } } }.
Proof. lia. Qed.

Definition withRetry : M S A := retry_loop 0.

End Retry.

(** Counting the invocations of an operation: the operation is run on a
    state paired with a counter that each call raises by one.  [withRetry]
    is generic in the state, so it cannot tell the difference. *)
Definition counting {S A} (operation : M S A) : M (S * nat) A :=
  fun sn =>
    match operation (fst sn) with
    | (r, s1) => (r, (s1, Datatypes.S (snd sn)))
    end.

#[export] Instance Host_counting {S} `{Host S} : Host (S * nat) := {
  setTimeout_await d sn := (setTimeout_await d (fst sn), snd sn);
  console_warn m sn := (console_warn m (fst sn), snd sn)
}.

(** ** JavaScript values and objects *)

(** The values a field of a parsed JSON request can hold, [undefined]
    standing for a field that is not there.  Numbers are the safe integers,
    those a double holds exactly; other numbers, arrays and nested objects
    are left out: the two fields the program reads are documented as
    strings. *)
Inductive JSValue : Type :=
| JUndefined
| JNull
| JBool (b : bool)
| JNum (n : Z)
| JStr (s : string).

(** [!!v] *)
Definition truthy (v : JSValue) : bool :=
  match v with
  | JUndefined | JNull => false
  | JBool b => b
  | JNum n => negb (n =? 0)
  | JStr s => negb (s =? "")%string
  end.

(** [Number.isSafeInteger(n)] *)
Definition isSafeInteger (n : Z) : bool := Z.abs n <=? 9007199254740991.

(** [`${v}`], also what [encodeURIComponent] applies to its argument first.
    A safe integer prints as its decimal digits. *)
Definition ToString (v : JSValue) : string :=
  match v with
  | JUndefined => "undefined"
  | JNull => "null"
  | JBool true => "true"
  | JBool false => "false"
  | JNum n => decimal n
  | JStr s => s
  end.

(** [v === 'literal'] *)
Definition is_string (v : JSValue) (literal : string) : bool :=
  match v with
  | JStr s => (s =? literal)%string
  | _ => false
  end.

(** An object with string keys, in property order. *)
Definition JSObject : Type := list (string * JSValue).

(** [o[k]] *)
Fixpoint obj_get (k : string) (o : JSObject) : JSValue :=
  match o with
  | [] => JUndefined
  | (k', v) :: rest => if (k =? k')%string then v else obj_get k rest
  end.

(** [k in o] for an own property. *)
Definition has_own (k : string) (o : JSObject) : bool :=
  existsb (fun kv => (k =? fst kv)%string) o.

(** [o[k] = v]: an existing key keeps its place, a new one goes last. *)
Fixpoint obj_set (k : string) (v : JSValue) (o : JSObject) : JSObject :=
  match o with
  | [] => [(k, v)]
  | (k', v') :: rest =>
      if (k =? k')%string then (k, v) :: rest else (k', v') :: obj_set k v rest
  end.

(** [{ ...dst, ...src }]: the own properties of [src] set on [dst] in order. *)
Definition obj_spread (src dst : JSObject) : JSObject :=
  fold_left (fun acc kv => obj_set (fst kv) (snd kv) acc) src dst.

(** ** Strings: [trim] and [encodeURIComponent]

    A [string] holds the UTF-8 bytes of the JavaScript string; a surrogate
    that stands without its partner, for which UTF-8 proper has no bytes, is
    held as the three bytes of its own code point. *)

Definition bytes (codes : list nat) : list ascii := map ascii_of_nat codes.

(** WhiteSpace and LineTerminator of ECMAScript, as UTF-8. *)
Definition whitespace : list (list ascii) :=
  map bytes
    [ [9]; [10]; [11]; [12]; [13]; [32]; [194; 160]; [225; 154; 128];
      [226; 128; 128]; [226; 128; 129]; [226; 128; 130]; [226; 128; 131];
      [226; 128; 132]; [226; 128; 133]; [226; 128; 134]; [226; 128; 135];
      [226; 128; 136]; [226; 128; 137]; [226; 128; 138]; [226; 128; 168];
      [226; 128; 169]; [226; 128; 175]; [226; 129; 159]; [227; 128; 128];
      [239; 187; 191] ]%nat.

(** [l] without its prefix [p], if it has it. *)
Fixpoint strip (p l : list ascii) : option (list ascii) :=
  match p, l with
  | [], _ => Some l
  | _ :: _, [] => None
  | a :: p', b :: l' => if Ascii.eqb a b then strip p' l' else None
  end.

Fixpoint strip_any (ws : list (list ascii)) (l : list ascii) : option (list ascii) :=
  match ws with
  | [] => None
  | p :: ws' =>
      match strip p l with
      | Some r => Some r
      | None => strip_any ws' l
      end
  end.

(** Drop leading white space; [fuel] bounds the number of characters. *)
Fixpoint drop_space (fuel : nat) (ws : list (list ascii)) (l : list ascii) : list ascii :=
  match fuel with
  | O => l
  | Datatypes.S fuel' =>
      match strip_any ws l with
      | Some r => drop_space fuel' ws r
      | None => l
      end
  end.

(** [s.trim()] *)
Definition trim (s : string) : string :=
  let l := list_ascii_of_string s in
  let l1 := drop_space (length l) whitespace l in
  let l2 := drop_space (length l1) (map (@rev ascii) whitespace) (rev l1) in
  string_of_list_ascii (rev l2).

(** [s] between double quotes. *)
Definition quoted (s : string) : string :=
  String (ascii_of_nat 34) s ++ String (ascii_of_nat 34) "".

(** The characters [encodeURIComponent] leaves alone. *)
Definition unreserved (c : ascii) : bool :=
  let n := nat_of_ascii c in
  ((65 <=? n) && (n <=? 90) || (97 <=? n) && (n <=? 122)
   || (48 <=? n) && (n <=? 57))%nat
  || existsb (Ascii.eqb c) (list_ascii_of_string "-_.!~*'()").

Definition hexDigit (n : nat) : ascii :=
  nth n (list_ascii_of_string "0123456789ABCDEF") "0"%char.

Definition percent (c : ascii) : string :=
  let n := nat_of_ascii c in
  String "%" (String (hexDigit (n / 16)) (String (hexDigit (n mod 16)) "")).

(** The bytes are UTF-8 proper: no byte out of place, no overlong form, and
    no code point of a surrogate.  [pending] bytes of the current character
    are still to come, the next of them between [lo] and [hi]. *)
Fixpoint well_formed_from (pending lo hi : nat) (l : list nat) : bool :=
  match l with
  | [] => (pending =? 0)%nat
  | b :: rest =>
      if (pending =? 0)%nat then
        if (b <? 128)%nat then well_formed_from 0 128 191 rest
        else if ((194 <=? b) && (b <=? 223))%nat then well_formed_from 1 128 191 rest
        else if (b =? 224)%nat then well_formed_from 2 160 191 rest
        else if (b =? 237)%nat then well_formed_from 2 128 159 rest
        else if ((225 <=? b) && (b <=? 239))%nat then well_formed_from 2 128 191 rest
        else if (b =? 240)%nat then well_formed_from 3 144 191 rest
        else if ((241 <=? b) && (b <=? 243))%nat then well_formed_from 3 128 191 rest
        else if (b =? 244)%nat then well_formed_from 3 128 143 rest
        else false
      else if ((lo <=? b) && (b <=? hi))%nat
           then well_formed_from (Nat.pred pending) 128 191 rest
           else false
  end.

(** The JavaScript string holds no surrogate without its partner. *)
Definition well_formed (s : string) : bool :=
  well_formed_from 0 128 191 (map nat_of_ascii (list_ascii_of_string s)).

(** Every byte of the UTF-8 form that is not unreserved becomes [%XX]. *)
Fixpoint percent_encode (s : string) : string :=
  match s with
  | EmptyString => ""
  | String c rest =>
      (if unreserved c then String c "" else percent c) ++ percent_encode rest
  end.

(** [encodeURIComponent(s)]: a string that holds a lone surrogate has no
    UTF-8 form, and the function raises. *)
Definition encodeURIComponent (s : string) : Completion string :=
  if well_formed s then Normal (percent_encode s)
  else Thrown (mkError "URIError" "URI malformed").

(** ** The page: documents and elements, seen through selector queries *)

(** An element: its text, its [href] property where it has one, its
    attributes, and for each selector the first element it matches below
    this one. *)
#[warnings="-register-all"]
Inductive Element : Type :=
  mkElement {
    textContent : string;
    href : option string;
    attributes : list (string * string);
    matches : list (string * Element)
  }.

(** What [page.evaluate] hands back to the host: an array of objects, or a
    value that is no array.  Arrays of anything but flat objects are left
    out, as nested values are everywhere in the embedding. *)
Inductive Returned : Type :=
| RArray (rows : list JSObject)
| RValue (v : JSValue).

(** A document: for each selector, the elements it matches, in DOM order;
    and the value of the page's global [searchResults], where the page has a
    global of that name. *)
Record Document : Type := mkDocument {
  matchesAll : list (string * list Element);
  window_searchResults : option Returned
}.

Fixpoint lookup {V} (k : string) (l : list (string * V)) : option V :=
  match l with
  | [] => None
  | (k', v) :: rest => if (k =? k')%string then Some v else lookup k rest
  end.

(** [el.querySelector(selector)], [null] as [None]. *)
Definition querySelector (selector : string) (el : Element) : option Element :=
  lookup selector (matches el).

(** [Array.from(document.querySelectorAll(selector))] *)
Definition querySelectorAll (selector : string) (document : Document) : list Element :=
  match lookup selector (matchesAll document) with
  | Some els => els
  | None => []
  end.

(** [el.getAttribute(name)], [null] as [None]. *)
Definition getAttribute (attr : string) (el : Element) : option string :=
  lookup attr (attributes el).

(** [x || ''] for [x] a string, [undefined] or [null]. *)
Definition or_empty (x : option string) : string :=
  match x with
  | Some s => if (s =? "")%string then "" else s
  | None => ""
  end.

(** [el?.f] *)
Definition opt_chain {A B} (el : option A) (f : A -> B) : option B :=
  match el with
  | Some e => Some (f e)
  | None => None
  end.

(** [el?.f] where [f] itself may be [undefined] or [null]. *)
Definition opt_chain' {A B} (el : option A) (f : A -> option B) : option B :=
  match el with
  | Some e => f e
  | None => None
  end.

(** ** The in-page extractors (the functions given to [page.evaluate]) *)

(** The arrow function [performGoogleSearch] maps over the containers. *)
Definition googleRecord (el : Element) : JSObject :=
  let titleEl := querySelector ".LC20lb" el in
  let urlEl := querySelector ".yuRUbf > a" el in
  let snippetEl := querySelector ".VwiCzo" el in
  [ ("title", JStr (or_empty (opt_chain titleEl textContent)));
    ("url", JStr (or_empty (opt_chain' urlEl href)));
    ("snippet", JStr (or_empty (opt_chain snippetEl textContent))) ].

(** index.ts, 68-80.  The records are bound to [results], but what the
    function returns is [searchResults].  The function runs in the page: the
    host's constant of that name is out of its reach, and the name is looked
    up among the globals of the page.  Where the page has no such global the
    reference raises; where it has one, the value of the global is what the
    function returns. *)
Definition googleExtractor (document : Document) : Completion Returned :=
  let results := map googleRecord (querySelectorAll ".tF2Cxc" document) in
  match window_searchResults document with
  | Some searchResults => Normal searchResults
  | None => Thrown (mkError "ReferenceError" "searchResults is not defined")
  end.

Definition duckDuckGoRecord (el : Element) : JSObject :=
  let titleEl := querySelector "a.result__a" el in
  let urlEl := querySelector "a.result__a" el in
  let snippetEl := querySelector ".result__snippet" el in
  [ ("title", JStr (or_empty (opt_chain titleEl (fun e => trim (textContent e)))));
    ("url", JStr (or_empty (opt_chain' urlEl href)));
    ("snippet", JStr (or_empty (opt_chain snippetEl (fun e => trim (textContent e))))) ].

(** index.ts, 98-111 *)
Definition duckDuckGoExtractor (document : Document) : Completion (list JSObject) :=
  let resultsSelector := ".results_wrapper .web-results .result" in
  Normal (map duckDuckGoRecord (querySelectorAll resultsSelector document)).

Definition youTubeRecord (el : Element) : JSObject :=
  let titleEl := querySelector "#video-title" el in
  let url := opt_chain' (querySelector "#video-title" el) (getAttribute "href") in
  let snippetEl := querySelector "#description-text" el in
  [ ("title", JStr (or_empty (opt_chain titleEl (fun e => trim (textContent e)))));
    ("url", JStr (match url with
                  | Some u => if truthy (JStr u) then "https://www.youtube.com" ++ u else ""
                  | None => ""
                  end));
    ("snippet", JStr (or_empty (opt_chain snippetEl (fun e => trim (textContent e))))) ].

(** index.ts, 129-142 *)
Definition youTubeExtractor (document : Document) : Completion (list JSObject) :=
  let resultsSelector := "#contents ytd-item-section-renderer > div > ytd-video-renderer" in
  Normal (map youTubeRecord (querySelectorAll resultsSelector document)).

Definition pubMedRecord (el : Element) : JSObject :=
  let titleEl := querySelector ".docsum-title" el in
  let linkEl := querySelector ".docsum-title > a" el in
  let authorsEl := querySelector ".docsum-authors" el in
  let journalEl := querySelector ".docsum-journal" el in
  let snippetEl := querySelector ".full-citation" el in
  [ ("title", JStr (or_empty (opt_chain titleEl (fun e => trim (textContent e)))));
    ("url", JStr (match opt_chain' linkEl (getAttribute "href") with
                  | Some u => if truthy (JStr u) then "https://pubmed.ncbi.nlm.nih.gov" ++ u else ""
                  | None => ""
                  end));
    ("authors", JStr (or_empty (opt_chain authorsEl (fun e => trim (textContent e)))));
    ("journal", JStr (or_empty (opt_chain journalEl (fun e => trim (textContent e)))));
    ("snippet", JStr (or_empty (opt_chain snippetEl (fun e => trim (textContent e))))) ].

(** index.ts, 161-178 *)
Definition pubMedExtractor (document : Document) : Completion (list JSObject) :=
  Normal (map pubMedRecord (querySelectorAll ".pubmed-citation-list > .pubmed-citation" document)).

(** ** The world: module state, and the outside the program talks to *)

(** A JSON body, sent as a response or written to the snapshot file. *)
Inductive Body : Type :=
| ErrorBody (error : string)
| FailureBody (error message : string)
| SearchBody (id : string) (query engine : JSValue) (results : list JSObject).

Inductive Level : Type := LevelError | LevelWarn | LevelLog.

(** What the program does that can be watched from outside, in order. *)
Inductive Event : Type :=
| Console (level : Level) (text : string) (error : option Error)
| TimerWait (ms : Z)
| Goto (url : string)
| Uncaught (error : Error).

(** The outside answers, and may answer differently each time it is asked:
    the n-th launch of the browser, the n-th opening of a page, the n-th
    page load, the n-th reading of the clock, the n-th identifier, the n-th
    write to disk.  For the launch, the page and the disk [None] is success.
    [rejection] is Playwright's doing: the error [page.evaluate] rejects
    with in the host when the page function has raised in the page. *)
Record Env : Type := mkEnv {
  launch : nat -> option Error;
  newPage : nat -> option Error;
  web : nat -> string -> Error + Document;
  rejection : Error -> Error;
  clock : nat -> string;
  uuid : nat -> string;
  disk : nat -> option Error
}.

Record World : Type := mkWorld {
  browser : bool;                (* [let browser] is set *)
  page : bool;                   (* [let page] is set *)
  document : Document;           (* what the page shows *)
  results : list JSObject;       (* [const results = []] *)
  file : option Body;            (* search_results.json beside the script *)
  log : list Event;
  env : Env;
  launches : nat;
  newPages : nat;
  gotos : nat;
  clock_reads : nat;
  uuids : nat;
  writes : nat;
  exited : option Error          (* the uncaught error the process ended on *)
}.

Definition set_browser (b : bool) (w : World) : World :=
  mkWorld b (page w) (document w) (results w) (file w) (log w) (env w)
    (launches w) (newPages w) (gotos w) (clock_reads w) (uuids w) (writes w)
    (exited w).

Definition set_page (p : bool) (d : Document) (w : World) : World :=
  mkWorld (browser w) p d (results w) (file w) (log w) (env w)
    (launches w) (newPages w) (gotos w) (clock_reads w) (uuids w) (writes w)
    (exited w).

Definition set_results (r : list JSObject) (w : World) : World :=
  mkWorld (browser w) (page w) (document w) r (file w) (log w) (env w)
    (launches w) (newPages w) (gotos w) (clock_reads w) (uuids w) (writes w)
    (exited w).

Definition set_file (f : option Body) (w : World) : World :=
  mkWorld (browser w) (page w) (document w) (results w) f (log w) (env w)
    (launches w) (newPages w) (gotos w) (clock_reads w) (uuids w) (writes w)
    (exited w).

Definition set_exited (e : option Error) (w : World) : World :=
  mkWorld (browser w) (page w) (document w) (results w) (file w) (log w) (env w)
    (launches w) (newPages w) (gotos w) (clock_reads w) (uuids w) (writes w) e.

Definition emit (e : Event) (w : World) : World :=
  mkWorld (browser w) (page w) (document w) (results w) (file w)
    (log w ++ [e]) (env w)
    (launches w) (newPages w) (gotos w) (clock_reads w) (uuids w) (writes w)
    (exited w).

Definition tick_launch (w : World) : World :=
  mkWorld (browser w) (page w) (document w) (results w) (file w) (log w) (env w)
    (Datatypes.S (launches w)) (newPages w) (gotos w) (clock_reads w) (uuids w)
    (writes w) (exited w).

Definition tick_newPage (w : World) : World :=
  mkWorld (browser w) (page w) (document w) (results w) (file w) (log w) (env w)
    (launches w) (Datatypes.S (newPages w)) (gotos w) (clock_reads w) (uuids w)
    (writes w) (exited w).

Definition tick_goto (w : World) : World :=
  mkWorld (browser w) (page w) (document w) (results w) (file w) (log w) (env w)
    (launches w) (newPages w) (Datatypes.S (gotos w)) (clock_reads w) (uuids w)
    (writes w) (exited w).

Definition tick_clock (w : World) : World :=
  mkWorld (browser w) (page w) (document w) (results w) (file w) (log w) (env w)
    (launches w) (newPages w) (gotos w) (Datatypes.S (clock_reads w)) (uuids w)
    (writes w) (exited w).

Definition tick_uuid (w : World) : World :=
  mkWorld (browser w) (page w) (document w) (results w) (file w) (log w) (env w)
    (launches w) (newPages w) (gotos w) (clock_reads w) (Datatypes.S (uuids w))
    (writes w) (exited w).

Definition tick_write (w : World) : World :=
  mkWorld (browser w) (page w) (document w) (results w) (file w) (log w) (env w)
    (launches w) (newPages w) (gotos w) (clock_reads w) (uuids w)
    (Datatypes.S (writes w)) (exited w).

#[export] Instance Host_World : Host World := {
  setTimeout_await ms := emit (TimerWait ms);
  console_warn text := emit (Console LevelWarn text None)
}.

(** [console.error(text, error)] *)
Definition console_error (text : string) (error : Error) : M World unit :=
  effect (emit (Console LevelError text (Some error))).

(** [console.log(text)] *)
Definition console_log (text : string) : M World unit :=
  effect (emit (Console LevelLog text None)).

(** [new Date().toISOString()] *)
Definition now_toISOString : M World string :=
  fun w => (Normal (clock (env w) (clock_reads w)), tick_clock w).

(** [uuidv4()] *)
Definition uuidv4 : M World string :=
  fun w => (Normal (uuid (env w) (uuids w)), tick_uuid w).

(** The page of a browser that has just opened it. *)
Definition about_blank : Document := mkDocument [] None.

(** [browser = await chromium.launch({ headless: 'new' })]: the outside
    decides whether a browser comes up with these options; the variable is
    assigned only when one does. *)
Definition chromium_launch : M World unit :=
  fun w =>
    match launch (env w) (launches w) with
    | None => (Normal tt, set_browser true (tick_launch w))
    | Some error => (Thrown error, tick_launch w)
    end.

(** [page = await browser.newPage()] *)
Definition browser_newPage : M World unit :=
  fun w =>
    match newPage (env w) (newPages w) with
    | None => (Normal tt, set_page true about_blank (tick_newPage w))
    | Some error => (Thrown error, tick_newPage w)
    end.

(** [if (!variable) { ... }] for a module-level variable. *)
Definition unless (variable : World -> bool) (body : M World unit) : M World unit :=
  fun w => if variable w then (Normal tt, w) else body w.

(** [ensureBrowser] (index.ts, 37-47): launch unless a browser is there, open
    a page unless one is there.  Either step can fail, and then the call
    rejects with the variable left as it was. *)
Definition ensureBrowser : M World unit :=
  unless browser chromium_launch ;;
  unless page browser_newPage.

(** [page.goto(url, { waitUntil: 'domcontentloaded' })]: the outside decides
    whether the load fails, and what the page shows when it does not. *)
Definition page_goto (url : string) : M World unit :=
  fun w =>
    let w1 := tick_goto (emit (Goto url) w) in
    match web (env w) (gotos w) url with
    | inr loaded => (Normal tt, set_page (page w1) loaded w1)
    | inl error => (Thrown error, w1)
    end.

(** [page.evaluate(pageFunction)]: the function runs on the document the
    page shows; when it raises there, the call rejects here with the error
    Playwright makes of it. *)
Definition page_evaluate {A} (pageFunction : Document -> Completion A) : M World A :=
  fun w =>
    match pageFunction (document w) with
    | Normal value => (Normal value, w)
    | Thrown error => (Thrown (rejection (env w) error), w)
    end.

(** [safePageNavigation] (index.ts, 50-57) *)
Definition safePageNavigation (url : string) : M World unit :=
  try_catch (page_goto url)
    (fun error =>
       console_error ("Navigation to " ++ url ++ " failed:") error ;;
       throw error).

(** [addResult] (index.ts, 60-62) *)
Definition addResult (result : JSObject) : M World unit :=
  effect (fun w => set_results (results w ++ [result]) w).

(** [array.forEach(callback)] *)
Fixpoint forEach {A} (array : list A) (callback : A -> M World unit) : M World unit :=
  match array with
  | [] => ret tt
  | x :: rest => callback x ;; forEach rest callback
  end.

(** ** SearchPipeline: the four scrapers (index.ts, 65-188) *)

(** [{ type: tag, ...result, timestamp: new Date().toISOString() }] handed
    to [addResult]: the body of each [forEach] callback. *)
Definition stamped (tag timestamp : string) (result : JSObject) : JSObject :=
  obj_set "timestamp" (JStr timestamp) (obj_spread result [("type", JStr tag)]).

Definition stamp (tag : string) (result : JSObject) : M World unit :=
  timestamp <- now_toISOString ;;
  addResult (stamped tag timestamp result).

(** An expression that has been evaluated, as a step of the computation. *)
Definition completes {S A} (c : Completion A) : M S A := fun s => (c, s).

(** What [searchResults.forEach(...)] raises when [searchResults] holds a
    value that is no array. *)
Definition no_forEach (v : JSValue) : Error :=
  match v with
  | JUndefined | JNull =>
      mkError "TypeError"
        ("Cannot read properties of " ++ ToString v ++ " (reading 'forEach')")
  | _ => mkError "TypeError" "searchResults.forEach is not a function"
  end.

Definition performGoogleSearch (query : JSValue) : M World (list JSObject) :=
  ensureBrowser ;;
  encoded <- completes (encodeURIComponent (ToString query)) ;;
  safePageNavigation ("https://www.google.com/search?q=" ++ encoded) ;;
  searchResults <- page_evaluate googleExtractor ;;
  match searchResults with
  | RArray rows =>
      forEach rows (stamp "google") ;;
      ret rows
  | RValue v => throw (no_forEach v)
  end.

Definition performDuckDuckGoSearch (query : JSValue) : M World (list JSObject) :=
  ensureBrowser ;;
  encoded <- completes (encodeURIComponent (ToString query)) ;;
  safePageNavigation ("https://duckduckgo.com/?q=" ++ encoded) ;;
  results <- page_evaluate duckDuckGoExtractor ;;
  forEach results (stamp "duckduckgo") ;;
  ret results.

Definition performYouTubeSearch (query : JSValue) : M World (list JSObject) :=
  ensureBrowser ;;
  encoded <- completes (encodeURIComponent (ToString query)) ;;
  safePageNavigation ("https://www.youtube.com/results?search_query=" ++ encoded) ;;
  results <- page_evaluate youTubeExtractor ;;
  forEach results (stamp "youtube") ;;
  ret results.

Definition performPubMedSearch (query : JSValue) : M World (list JSObject) :=
  ensureBrowser ;;
  let specificSearchTerms :=
    "(" ++ quoted "Randomized controlled trial" ++ "[Publication Type] OR "
    ++ quoted "Meta-Analysis" ++ "[Publication Type] OR "
    ++ quoted "Review" ++ "[Publication Type])" in
  let fullQuery := ToString query ++ " AND " ++ specificSearchTerms in
  encoded <- completes (encodeURIComponent fullQuery) ;;
  safePageNavigation ("https://pubmed.ncbi.nlm.nih.gov/?term=" ++ encoded) ;;
  pubmedResults <- page_evaluate pubMedExtractor ;;
  forEach pubmedResults (stamp "pubmed") ;;
  ret pubmedResults.

(** ** RequestGateway, tool side (index.ts, 209-282) *)

(** The text of a tool result: [JSON.stringify(results, null, 2)] of the
    batch, kept structured, or a plain message. *)
Inductive ToolText : Type :=
| JsonText (results : list JSObject)
| PlainText (text : string).

(** [{ content: [{ type: 'text', text }], isError }]; [isError] is [false]
    where the source leaves the flag out. *)
Record ToolResult : Type := mkToolResult {
  text : ToolText;
  isError : bool
}.

(** One [case] of the switch; the four are the same code up to the pipeline
    called and the engine named in the message: the pipeline under the retry
    policy with its defaults, and the [catch] that turns an error into a
    flagged result. *)
Definition tool_case (engineName : string)
    (perform : JSValue -> M World (list JSObject)) (arguments : JSObject)
  : M World ToolResult :=
  let query := obj_get "query" arguments in
  try_catch
    (results <- withRetry (perform query) 3 1000 ;;
     ret (mkToolResult (JsonText results) false))
    (fun error =>
       ret (mkToolResult
              (PlainText ("Failed to perform " ++ engineName ++ " search: " ++ message error))
              true)).

Definition toolHandler (name : string) (arguments : JSObject) : M World ToolResult :=
  ensureBrowser ;;
  if (name =? "search_google")%string then
    tool_case "Google" performGoogleSearch arguments
  else if (name =? "search_duckduckgo")%string then
    tool_case "DuckDuckGo" performDuckDuckGoSearch arguments
  else if (name =? "search_youtube")%string then
    tool_case "YouTube" performYouTubeSearch arguments
  else if (name =? "search_pubmed")%string then
    tool_case "PubMed" performPubMedSearch arguments
  else
    ret (mkToolResult (PlainText ("Tool " ++ name ++ " not found")) true).

(** ** RequestGateway, HTTP side (index.ts, 289-354) *)

(** The [res] object of one request: the status set on it, and what has gone
    out to the client, once it has. *)
Record Response : Type := mkResponse {
  statusCode : Z;
  sent : option (Z * Body)
}.

(** A request being served: the world, the request's [res], and the writes
    the handler has started that have not completed. *)
Record Exchange : Type := mkExchange {
  world : World;
  res : Response;
  pending : list Body
}.

Definition liftW {A} (m : M World A) : M Exchange A :=
  fun x =>
    match m (world x) with
    | (c, w1) => (c, mkExchange w1 (res x) (pending x))
    end.

(** [res.status(code)] *)
Definition res_status (code : Z) : M Exchange unit :=
  effect (fun x => mkExchange (world x) (mkResponse code (sent (res x))) (pending x)).

(** What express raises when a response that has gone out is sent again: an
    [Error] whose [code] is [ERR_HTTP_HEADERS_SENT]. *)
Definition headers_sent : Error :=
  mkError "Error" "Cannot set headers after they are sent to the client".

(** [res.json(body)]: the body goes out under the status set; a response that
    has gone out cannot be sent again, express raises instead. *)
Definition res_json (body : Body) : M Exchange unit :=
  fun x =>
    match sent (res x) with
    | None =>
        (Normal tt,
         mkExchange (world x)
           (mkResponse (statusCode (res x)) (Some (statusCode (res x), body)))
           (pending x))
    | Some _ => (Thrown headers_sent, x)
    end.

(** [fs.writeFile(filePath, jsonData, 'utf8', callback)]: the write starts;
    it completes, and the callback runs, from the event loop later on. *)
Definition fs_writeFile (jsonData : Body) : M Exchange unit :=
  effect (fun x => mkExchange (world x) (res x) (pending x ++ [jsonData])).

(** [{ id: responseId, query, engine, results }] turned to JSON: the store
    is read when the object is serialized. *)
Definition snapshot (responseId : string) (query engine : JSValue) : M World Body :=
  fun w => (Normal (SearchBody responseId query engine (results w)), w).

(** The [async (req, res) => { ... }] given to [app.post('/search')]. *)
Definition searchHandler (body : JSObject) : M Exchange unit :=
  let query := obj_get "query" body in
  let engine := obj_get "engine" body in
  if negb (truthy query) || negb (truthy engine) then
    res_status 400 ;; res_json (ErrorBody "Query and engine are required")
  else
    liftW (effect (set_results [])) ;;
    try_catch
      (searchResults <-
         (if is_string engine "google" then
            r <- liftW (performGoogleSearch query) ;; ret (Some r)
          else if is_string engine "duckduckgo" then
            r <- liftW (performDuckDuckGoSearch query) ;; ret (Some r)
          else if is_string engine "youtube" then
            r <- liftW (performYouTubeSearch query) ;; ret (Some r)
          else if is_string engine "pubmed" then
            r <- liftW (performPubMedSearch query) ;; ret (Some r)
          else
            res_status 400 ;; res_json (ErrorBody "Invalid search engine") ;;
            ret None) ;;
       match searchResults with
       | None => ret tt
       | Some _ =>
           responseId <- liftW uuidv4 ;;
           jsonData <- liftW (snapshot responseId query engine) ;;
           fs_writeFile jsonData ;;
           payload <- liftW (snapshot responseId query engine) ;;
           res_json payload
       end)
      (fun error =>
         liftW (console_error "Search failed:" error) ;;
         res_status 500 ;;
         res_json (FailureBody "Search failed" (message error))).

(** The callback given to [fs.writeFile]. *)
Definition writeFileCallback (err : option Error) : M Exchange unit :=
  match err with
  | Some e =>
      liftW (console_error "Error writing to file:" e) ;;
      res_status 500 ;;
      res_json (ErrorBody "Failed to write search results to file")
  | None => liftW (console_log "Search results written to file successfully")
  end.

(** An error nobody catches: Node reports it and the process ends there. *)
Definition crash (e : Error) (w : World) : World :=
  set_exited (Some e) (emit (Uncaught e) w).

(** The event loop completes one write: the disk answers, a write that
    succeeds replaces the file, and the callback runs. *)
Definition complete_write (jsonData : Body) : M Exchange unit :=
  fun x =>
    let w := world x in
    let err := disk (env w) (writes w) in
    let w1 := match err with
              | None => set_file (Some jsonData) (tick_write w)
              | Some _ => tick_write w
              end in
    writeFileCallback err (mkExchange w1 (res x) (pending x)).

(** The writes that have been started complete one after the other, for as
    long as the process lives: what a callback raises nobody catches. *)
Fixpoint complete_writes (started : list Body) (x : Exchange) : Exchange :=
  match started with
  | [] => x
  | jsonData :: rest =>
      match complete_write jsonData x with
      | (Normal _, x1) => complete_writes rest x1
      | (Thrown e, x1) => mkExchange (crash e (world x1)) (res x1) (pending x1)
      end
  end.

(** One [POST /search] to the running process, from the request to a quiet
    event loop: the handler runs on a fresh [res] to its end, then the
    writes it started complete and their callbacks run ([fs.writeFile] never
    calls back before the code that started it has returned).  What the
    client receives is [sent] of the response.  Were the handler to reject,
    nobody would catch that either. *)
Definition postSearch (body : JSObject) (w : World) : Response * World :=
  match searchHandler body (mkExchange w (mkResponse 200 None) []) with
  | (Normal _, x1) =>
      let x2 := complete_writes (pending x1) (mkExchange (world x1) (res x1) []) in
      (res x2, world x2)
  | (Thrown e, x1) => (res x1, crash e (world x1))
  end.

(** ** What the statements below talk about *)

(** The state after the wait and the warning that follow failed attempt
    number [attempt]. *)
Definition pause {S} `{Host S} (delay attempt : Z) (s : S) : S :=
  console_warn ("Attempt " ++ decimal attempt ++ " failed, retrying...")
    (setTimeout_await delay s).
Arguments pause : simpl never.

(** The four pipelines, each with the tag it stamps on its records.  The
    HTTP switch selects a pipeline by the same word. *)
Inductive pipeline : string -> (JSValue -> M World (list JSObject)) -> Prop :=
| pipeline_google : pipeline "google" performGoogleSearch
| pipeline_duckduckgo : pipeline "duckduckgo" performDuckDuckGoSearch
| pipeline_youtube : pipeline "youtube" performYouTubeSearch
| pipeline_pubmed : pipeline "pubmed" performPubMedSearch.

(** [engine] is one of the four names of the HTTP switch. *)
Definition registered (engine : JSValue) : bool :=
  is_string engine "google" || is_string engine "duckduckgo"
  || is_string engine "youtube" || is_string engine "pubmed".

(** The records a batch adds to the store: each row stamped with the tag and
    with the reading of the clock taken for it, the first row with reading
    number [n]. *)
Fixpoint stamp_all (tag : string) (clock : nat -> string) (n : nat)
    (rows : list JSObject) : list JSObject :=
  match rows with
  | [] => []
  | row :: rest => stamped tag (clock n) row :: stamp_all tag clock (Datatypes.S n) rest
  end.

(** The shape the four pipelines share: the page is made sure of, the
    search URL is put together and loaded, the page function runs in the
    page, each row of the array it returns is stamped and stored, and the
    rows are returned. *)
Definition scrape (target : Completion string)
    (pageFunction : Document -> Completion Returned) (tag : string)
  : M World (list JSObject) :=
  ensureBrowser ;;
  url <- completes target ;;
  safePageNavigation url ;;
  value <- page_evaluate pageFunction ;;
  match value with
  | RArray rows => forEach rows (stamp tag) ;; ret rows
  | RValue v => throw (no_forEach v)
  end.

(** A page function that maps over the containers returns an array. *)
Definition array_of (extractor : Document -> Completion (list JSObject))
  : Document -> Completion Returned :=
  fun document =>
    match extractor document with
    | Normal rows => Normal (RArray rows)
    | Thrown error => Thrown error
    end.

(** [base] followed by [encodeURIComponent(s)]. *)
Definition address (base s : string) : Completion string :=
  match encodeURIComponent s with
  | Normal encoded => Normal (base ++ encoded)
  | Thrown error => Thrown error
  end.

(** The filter clause of the PubMed search, as the source spells it. *)
Definition specificSearchTerms : string :=
  "(" ++ quoted "Randomized controlled trial" ++ "[Publication Type] OR "
  ++ quoted "Meta-Analysis" ++ "[Publication Type] OR "
  ++ quoted "Review" ++ "[Publication Type])".

(** The browser and the page are there once [ensureBrowser] has been
    awaited: they were already, or the launch and the opening succeed. *)
Definition comes_up (w : World) : Prop := fst (ensureBrowser w) = Normal tt.

(** The query is one whose string form the embedding has right and
    [encodeURIComponent] takes: a number within the safe integers, a string
    without lone surrogate. *)
Definition encodable (query : JSValue) : bool :=
  well_formed (ToString query)
  && match query with
     | JNum n => isSafeInteger n
     | _ => true
     end.

(** The world once [ensureBrowser] has run. *)
Definition ensured (w : World) : World := snd (ensureBrowser w).
Arguments ensured : simpl never.

(** The world once [page.goto(url)] has been tried from [w]: the attempt is
    on record, and counted. *)
Definition tried (url : string) (w : World) : World :=
  tick_goto (emit (Goto url) (ensured w)).

(** The world once the page shows [loaded]. *)
Definition arrived (url : string) (loaded : Document) (w : World) : World :=
  set_page (page (ensured w)) loaded (tried url w).

(** The world once a navigation has failed with [error] and
    [safePageNavigation] has reported it. *)
Definition stranded (url : string) (error : Error) (w : World) : World :=
  emit (Console LevelError ("Navigation to " ++ url ++ " failed:") (Some error))
    (tried url w).

(** The world once one more row has been stamped and stored. *)
Definition add_stamped (tag : string) (w : World) (row : JSObject) : World :=
  set_results
    (results w ++ [stamped tag (clock (env w) (clock_reads w)) row])
    (tick_clock w).

(** A row as an extractor makes it: it has no [type] and no [timestamp] of
    its own, so that stamping it puts the tag in front of its fields and the
    timestamp behind them. *)
Definition raw_row (tag : string) (row : JSObject) : Prop :=
  has_own "type" row = false /\ has_own "timestamp" row = false
  /\ forall timestamp,
       stamped tag timestamp row
       = ("type", JStr tag) :: row ++ [("timestamp", JStr timestamp)].

(** What the client of a request has received. *)
Definition received (outcome : Response * World) : option (Z * Body) :=
  sent (fst outcome).

(** The world a request leaves when its pipeline run ended in [w1] and the
    snapshot was then written to disk. *)
Definition written (payload : Body) (w1 : World) : World :=
  emit (Console LevelLog "Search results written to file successfully" None)
    (set_file (Some payload) (tick_write (tick_uuid w1))).

(** The world a request leaves when its pipeline run ended in [w1] and the
    disk then refused the snapshot: the refusal is on the console, and the
    process has ended on what the callback raised by answering a request
    that had its answer. *)
Definition refused (err : Error) (w1 : World) : World :=
  crash headers_sent
    (emit (Console LevelError "Error writing to file:" (Some err))
       (tick_write (tick_uuid w1))).

(** The spec's words: the href starts with a scheme, that is (RFC 3986) a
    letter, then letters, digits, [+], [-] or [.], then a colon. *)
Definition is_alpha (c : ascii) : bool :=
  let n := nat_of_ascii c in
  ((65 <=? n) && (n <=? 90) || (97 <=? n) && (n <=? 122))%nat.

Definition is_scheme_char (c : ascii) : bool :=
  let n := nat_of_ascii c in
  is_alpha c || ((48 <=? n) && (n <=? 57))%nat
  || existsb (Ascii.eqb c) (list_ascii_of_string "+-.").

Fixpoint scheme_ends (s : string) : bool :=
  match s with
  | EmptyString => false
  | String c rest =>
      if Ascii.eqb c ":" then true
      else if is_scheme_char c then scheme_ends rest else false
  end.

Definition has_scheme (s : string) : bool :=
  match s with
  | EmptyString => false
  | String c rest => is_alpha c && scheme_ends rest
  end.

(** The spec's words for the link rule: the origin goes in front of an href
    unless the href starts with a scheme; no href, empty url. *)
Definition resolved_as_specified (origin : string) (link : option string) : string :=
  match link with
  | Some h => if has_scheme h then h else origin ++ h
  | None => ""
  end.

(** What the two extractors compute: the origin goes in front of any href
    that is there and not empty. *)
Definition prefixed (origin : string) (link : option string) : string :=
  match link with
  | Some h => if (h =? "")%string then "" else origin ++ h
  | None => ""
  end.

(** The href attribute of the element [selector] finds in a container. *)
Definition link_href (selector : string) (container : Element) : option string :=
  opt_chain' (querySelector selector container) (getAttribute "href").

(** ** Fixtures: pages, a network, a disk *)

Definition anchor (label target : string) : Element :=
  mkElement label (Some target) [("href", target)] [].

Definition block (label : string) : Element :=
  mkElement label None [] [].

Definition container (found : list (string * Element)) : Element :=
  mkElement "" None [] found.

(** Two DuckDuckGo results, the second without a snippet. *)
Definition ddg_page : Document :=
  mkDocument
    [ (".results_wrapper .web-results .result",
       [ container [ ("a.result__a", anchor " Rocq Prover " "https://rocq-prover.org/");
                     (".result__snippet", block " A proof assistant. ") ];
         container [ ("a.result__a", anchor "Install" "https://rocq-prover.org/install") ] ]) ]
    None.

(** A Google result that has its link and snippet and no title element. *)
Definition untitled_result : Element :=
  container [ (".yuRUbf > a", anchor "" "https://rocq-prover.org/");
              (".VwiCzo", block "A proof assistant.") ].

Definition google_page : Document :=
  mkDocument [ (".tF2Cxc", [untitled_result]) ] None.

(** A row that is not of the program's making: it brings a [type]. *)
Definition planted : JSObject :=
  [ ("type", JStr "mine"); ("title", JStr "Planted") ].

(** The same result on a page whose script has a global [searchResults]. *)
Definition google_page_with_global : Document :=
  mkDocument [ (".tF2Cxc", [untitled_result]) ] (Some (RArray [planted])).

(** A video whose title link carries an absolute href. *)
Definition absolute_video : Element :=
  container
    [ ("#video-title",
       mkElement "Talk" None [("href", "https://youtu.be/abc")] []) ].

(** A citation whose title link carries an absolute href. *)
Definition absolute_citation : Element :=
  container
    [ (".docsum-title", block "A trial");
      (".docsum-title > a",
       mkElement "A trial" None [("href", "https://doi.org/10.1000/1")] []) ].

(** The JavaScript string that holds the one code unit U+D800. *)
Definition lone_surrogate : string :=
  string_of_list_ascii (bytes [237; 160; 128]%nat).

Definition offline : Error := mkError "Error" "net::ERR_INTERNET_DISCONNECTED".

Definition denied : Error := mkError "Error" "EACCES: permission denied".

Definition headless_refused : Error :=
  mkError "Error" "browserType.launch: headless: expected boolean, got string".

(** How an error raised in the page reaches the host. *)
Definition evaluate_failed (error : Error) : Error :=
  mkError "Error" ("page.evaluate: " ++ name error ++ ": " ++ message error).

(** A browser that comes up; a network that is down for the first [down]
    page loads and serves [served] from then on; a disk that takes writes or
    refuses them. *)
Definition example_env (down : nat) (served : Document) (disk_ok : bool) : Env :=
  mkEnv (fun _ => None) (fun _ => None)
        (fun n _ => if (n <? down)%nat then inl offline else inr served)
        evaluate_failed
        (fun n => "2024-05-01T12:00:0" ++ decimal (Z.of_nat n) ++ ".000Z")
        (fun n => "id-" ++ decimal (Z.of_nat n))
        (fun _ => if disk_ok then None else Some denied).

(** The same outside, with a browser that refuses the launch options. *)
Definition without_browser (e : Env) : Env :=
  mkEnv (fun _ => Some headless_refused) (newPage e) (web e) (rejection e)
        (clock e) (uuid e) (disk e).

(** The process as it starts, with [leftover] in the store. *)
Definition start (e : Env) (leftover : list JSObject) : World :=
  mkWorld false false about_blank leftover None [] e 0 0 0 0 0 0 None.

(** The store after is the store before with records added at its end. *)
Definition extends (w w1 : World) : Prop :=
  exists added, results w1 = (results w ++ added)%list.

(** Requests. *)
Definition search_request (query engine : string) : JSObject :=
  [("query", JStr query); ("engine", JStr engine)].

(** A record left in the store by an earlier request. *)
Definition leftover : JSObject :=
  [ ("type", JStr "youtube"); ("title", JStr "Talk");
    ("url", JStr "https://www.youtube.com/watch?v=abc"); ("snippet", JStr "");
    ("timestamp", JStr "2024-04-30T08:00:00.000Z") ].

(** The state in which invocation number [k + 1] of the operation starts,
    when the invocations before it have all failed: after each failure the
    wait, then the warning. *)
Fixpoint attempt_state {S A} `{Host S} (operation : M S A) (delay : Z)
    (k : nat) (s : S) : S :=
  match k with
  | O => s
  | Datatypes.S j =>
      pause delay (Z.of_nat (Datatypes.S j))
        (snd (operation (attempt_state operation delay j s)))
  end.

(** [name] is one of the four [case] labels of the tool switch. *)
Definition known_tool (name : string) : bool :=
  ((name =? "search_google") || (name =? "search_duckduckgo")
   || (name =? "search_youtube") || (name =? "search_pubmed"))%string.

(** The three pipelines whose page function returns the array it has
    mapped, each with the selector it hands to [document.querySelectorAll]. *)
Inductive mapping_pipeline :
  string -> (JSValue -> M World (list JSObject)) -> string -> Prop :=
| mapping_duckduckgo :
    mapping_pipeline "duckduckgo" performDuckDuckGoSearch
      ".results_wrapper .web-results .result"
| mapping_youtube :
    mapping_pipeline "youtube" performYouTubeSearch
      "#contents ytd-item-section-renderer > div > ytd-video-renderer"
| mapping_pubmed :
    mapping_pipeline "pubmed" performPubMedSearch
      ".pubmed-citation-list > .pubmed-citation".

(** The four cases of the tool switch: the name of the tool, the engine as
    the message of a failure names it, the tag of the pipeline, and the
    pipeline called. *)
Inductive tool :
  string -> string -> string -> (JSValue -> M World (list JSObject)) -> Prop :=
| tool_google : tool "search_google" "Google" "google" performGoogleSearch
| tool_duckduckgo :
    tool "search_duckduckgo" "DuckDuckGo" "duckduckgo" performDuckDuckGoSearch
| tool_youtube : tool "search_youtube" "YouTube" "youtube" performYouTubeSearch
| tool_pubmed : tool "search_pubmed" "PubMed" "pubmed" performPubMedSearch.

(** The search URL of the pipeline that stamps [tag], for a query. *)
Definition search_url (tag : string) (query : JSValue) : Completion string :=
  if (tag =? "google")%string then
    address "https://www.google.com/search?q=" (ToString query)
  else if (tag =? "duckduckgo")%string then
    address "https://duckduckgo.com/?q=" (ToString query)
  else if (tag =? "youtube")%string then
    address "https://www.youtube.com/results?search_query=" (ToString query)
  else
    address "https://pubmed.ncbi.nlm.nih.gov/?term="
      (ToString query ++ " AND " ++ specificSearchTerms).

(** The worlds a running process goes through as it serves requests, HTTP
    and tool, one after the other. *)
Inductive serves : World -> World -> Prop :=
| serves_none w : serves w w
| serves_http w body w' :
    exited w = None -> serves (snd (postSearch body w)) w' -> serves w w'
| serves_tool w name arguments w' :
    exited w = None -> serves (snd (toolHandler name arguments w)) w' ->
    serves w w'.

(** The filter clause of the PubMed search, as it stands in the URL. *)
Definition pubmed_filter_encoded : string :=
  "%20AND%20(%22Randomized%20controlled%20trial%22%5BPublication%20Type%5D%20OR%20%22Meta-Analysis%22%5BPublication%20Type%5D%20OR%20%22Review%22%5BPublication%20Type%5D)".

(** The log after is the log before with events added at its end. *)
Definition log_extends (w w1 : World) : Prop :=
  exists added, log w1 = (log w ++ added)%list.

(** * Properties *)

(** Unfold the plumbing of the monad, and nothing else. *)
Ltac monad :=
  cbv beta iota zeta delta [bind ret throw try_catch effect liftW] in *.

(** ** The retry policy *)

(** One turn of the loop, as the source writes it. *)
Lemma retry_loop_step {S A} `{Host S} (operation : M S A)
    (maxRetries delay attempt : Z) (s : S) :
  retry_loop operation maxRetries delay attempt s =
  if Z_lt_dec attempt maxRetries then
    match operation s with
    | (Normal v, s1) => (Normal v, s1)
    | (Thrown error, s1) =>
        if Z.eq_dec (attempt + 1) maxRetries then (Thrown error, s1)
        else retry_loop operation maxRetries delay (attempt + 1)
               (pause delay (attempt + 1) s1)
    end
  else (Thrown (mkError "Error" "Max retries reached"), s).
Proof.
  simp retry_loop.
  destruct (Z_lt_dec attempt maxRetries); cbn; [|reflexivity].
  destruct (operation s) as [[v|e] s1]; cbn; [reflexivity|].
  destruct (Z.eq_dec (attempt + 1) maxRetries); reflexivity.
Qed.

Lemma counting_run {S A} (operation : M S A) (s : S) (n : nat) :
  counting operation (s, n) = (fst (operation s), (snd (operation s), Datatypes.S n)).
Proof. unfold counting; cbn. destruct (operation s); reflexivity. Qed.

Lemma pause_counting {S} `{Host S} (delay attempt : Z) (s : S) (n : nat) :
  pause delay attempt (s, n) = (pause delay attempt s, n).
Proof. reflexivity. Qed.

(** C1. With [maxRetries = 3], an operation that fails on its first two
    invocations is invoked a third time; when that one succeeds [withRetry]
    returns its value, when it fails too [withRetry] rethrows its error; either
    way the operation has been invoked exactly three times. *)
Theorem C1_withRetry_three_attempts {S A} `{Host S} (operation : M S A)
    (delay : Z) (s0 s1 s2 s3 : S) (e1 e2 : Error) :
  operation s0 = (Thrown e1, s1) ->
  operation (pause delay 1 s1) = (Thrown e2, s2) ->
  (forall v : A,
      operation (pause delay 2 s2) = (Normal v, s3) ->
      withRetry (counting operation) 3 delay (s0, 0%nat) = (Normal v, (s3, 3%nat)))
  /\
  (forall e3 : Error,
      operation (pause delay 2 s2) = (Thrown e3, s3) ->
      withRetry (counting operation) 3 delay (s0, 0%nat) = (Thrown e3, (s3, 3%nat))).
Proof.
  intros H1 H2.
  assert (Hrun : forall r3, operation (pause delay 2 s2) = (r3, s3) ->
            withRetry (counting operation) 3 delay (s0, 0%nat) = (r3, (s3, 3%nat))).
  { intros r3 H3. unfold withRetry.
    rewrite retry_loop_step, counting_run, H1; cbn.
    rewrite retry_loop_step, pause_counting, counting_run, H2; cbn.
    rewrite retry_loop_step, pause_counting, counting_run, H3; cbn.
    destruct r3; reflexivity. }
  split; intros; apply Hrun; assumption.
Qed.

(** Whatever the bound, the loop ends in one of two ways: with the value of
    an invocation that succeeded, and in the state that invocation left, or
    with a throw. *)
Lemma retry_loop_outcome {S A} `{Host S} (operation : M S A)
    (maxRetries delay : Z) (n : nat) :
  forall (attempt : Z) (s : S),
    (Z.to_nat (maxRetries - attempt) <= n)%nat ->
    (exists v s_before s_after,
        operation s_before = (Normal v, s_after) /\
        retry_loop operation maxRetries delay attempt s = (Normal v, s_after))
    \/
    (exists e s_after,
        retry_loop operation maxRetries delay attempt s = (Thrown e, s_after)).
Proof.
  induction n as [|n IH]; intros attempt s Hn; rewrite retry_loop_step.
  - destruct (Z_lt_dec attempt maxRetries) as [Hlt|_]; [lia|].
    right; eauto.
  - destruct (Z_lt_dec attempt maxRetries) as [Hlt|_]; [|right; eauto].
    destruct (operation s) as [[v|e] s1] eqn:Hop.
    + left; eauto.
    + destruct (Z.eq_dec (attempt + 1) maxRetries) as [_|Hne]; [right; eauto|].
      apply IH. lia.
Qed.

(** C9. With [maxRetries = 0] the operation is not invoked and [withRetry]
    throws; and whatever the bound, [withRetry] either returns the value of an
    invocation of the operation that succeeded or throws: there is no third
    way out. *)
Theorem C9_withRetry_result_or_throw {S A} `{Host S} (operation : M S A)
    (maxRetries delay : Z) (s : S) :
  withRetry (counting operation) 0 delay (s, 0%nat)
  = (Thrown (mkError "Error" "Max retries reached"), (s, 0%nat))
  /\
  ((exists v s_before s_after,
       operation s_before = (Normal v, s_after) /\
       withRetry operation maxRetries delay s = (Normal v, s_after))
   \/
   (exists e s_after,
       withRetry operation maxRetries delay s = (Thrown e, s_after))).
Proof.
  split.
  - unfold withRetry. rewrite retry_loop_step. reflexivity.
  - unfold withRetry.
    apply (retry_loop_outcome operation maxRetries delay
             (Z.to_nat (maxRetries - 0))).
    apply Nat.le_refl.
Qed.

(** An operation that never succeeds is invoked once for each remaining
    attempt, and the error that comes out is the one its last invocation
    threw. *)
Lemma retry_loop_always_failing {S A} `{Host S} (operation : M S A)
    (maxRetries delay : Z)
    (Hfail : forall s, exists e s1, operation s = (Thrown e, s1)) (n : nat) :
  forall (attempt : Z) (s : S) (calls : nat),
    attempt < maxRetries ->
    Z.to_nat (maxRetries - attempt) = Datatypes.S n ->
    exists e s_before s_after,
      operation s_before = (Thrown e, s_after) /\
      retry_loop (counting operation) maxRetries delay attempt (s, calls)
      = (Thrown e, (s_after, (calls + Datatypes.S n)%nat)).
Proof.
  induction n as [|n IH]; intros attempt s calls Hlt Hn;
    rewrite retry_loop_step, counting_run;
    destruct (Z_lt_dec attempt maxRetries) as [_|Hge]; try lia;
    destruct (Hfail s) as (e & s1 & Hop); rewrite Hop; cbn;
    destruct (Z.eq_dec (attempt + 1) maxRetries) as [Heq|Hne]; try lia.
  - exists e, s, s1. split; [assumption|].
    replace (calls + 1)%nat with (Datatypes.S calls) by lia. reflexivity.
  - rewrite pause_counting.
    destruct (IH (attempt + 1) (pause delay (attempt + 1) s1) (Datatypes.S calls))
      as (e' & sb & sa & Hlast & Hrun); [lia | lia |].
    exists e', sb, sa. split; [assumption|].
    rewrite Hrun.
    replace (Datatypes.S calls + Datatypes.S n)%nat
      with (calls + Datatypes.S (Datatypes.S n))%nat by lia.
    reflexivity.
Qed.

(** X1. For any integer bound of at least one: an operation that always
    fails is invoked exactly [maxRetries] times, and [withRetry] rethrows the
    error of its last invocation. *)
Theorem withRetry_always_failing {S A} `{Host S} (operation : M S A)
    (maxRetries delay : Z) (s : S) :
  (forall s', exists e s1, operation s' = (Thrown e, s1)) ->
  1 <= maxRetries ->
  exists e s_before s_after,
    operation s_before = (Thrown e, s_after) /\
    withRetry (counting operation) maxRetries delay (s, 0%nat)
    = (Thrown e, (s_after, Z.to_nat maxRetries)).
Proof.
  intros Hfail Hmax.
  destruct (retry_loop_always_failing operation maxRetries delay Hfail
              (Nat.pred (Z.to_nat maxRetries)) 0 s 0%nat)
    as (e & sb & sa & Hlast & Hrun); [lia | lia |].
  exists e, sb, sa. split; [assumption|].
  unfold withRetry. rewrite Hrun.
  replace (0 + Datatypes.S (Nat.pred (Z.to_nat maxRetries)))%nat
    with (Z.to_nat maxRetries) by lia.
  reflexivity.
Qed.

(** ** The extractors *)

(** The three extractors that return: one record per container, in DOM
    order. *)
Lemma extractors_one_record_per_container (document : Document) :
  duckDuckGoExtractor document
  = Normal (map duckDuckGoRecord
              (querySelectorAll ".results_wrapper .web-results .result" document))
  /\ youTubeExtractor document
     = Normal (map youTubeRecord
                 (querySelectorAll
                    "#contents ytd-item-section-renderer > div > ytd-video-renderer"
                    document))
  /\ pubMedExtractor document
     = Normal (map pubMedRecord
                 (querySelectorAll ".pubmed-citation-list > .pubmed-citation" document)).
Proof. repeat split. Qed.

(** A field whose element is missing is the empty string; the record is
    there all the same, with each of its fields. *)
Lemma missing_title_is_empty (el : Element) :
  (querySelector "a.result__a" el = None ->
   obj_get "title" (duckDuckGoRecord el) = JStr "")
  /\ (querySelector "#video-title" el = None ->
      obj_get "title" (youTubeRecord el) = JStr "")
  /\ (querySelector ".docsum-title" el = None ->
      obj_get "title" (pubMedRecord el) = JStr "")
  /\ map fst (duckDuckGoRecord el) = ["title"; "url"; "snippet"]
  /\ map fst (youTubeRecord el) = ["title"; "url"; "snippet"]
  /\ map fst (pubMedRecord el) = ["title"; "url"; "authors"; "journal"; "snippet"].
Proof.
  repeat split; try reflexivity; intros Hnone;
    unfold duckDuckGoRecord, youTubeRecord, pubMedRecord; rewrite Hnone;
    reflexivity.
Qed.

(** C4, counterexample.  A video and a citation whose href starts with a
    scheme: the href does not come out unchanged, the origin is put in
    front of it. *)
Lemma C4_absolute_href_is_prefixed :
  exists (video citation : Element) (h1 h2 : string),
    link_href "#video-title" video = Some h1 /\ has_scheme h1 = true
    /\ obj_get "url" (youTubeRecord video)
       <> JStr (resolved_as_specified "https://www.youtube.com" (Some h1))
    /\ obj_get "url" (youTubeRecord video)
       = JStr "https://www.youtube.comhttps://youtu.be/abc"
    /\ link_href ".docsum-title > a" citation = Some h2 /\ has_scheme h2 = true
    /\ obj_get "url" (pubMedRecord citation)
       <> JStr (resolved_as_specified "https://pubmed.ncbi.nlm.nih.gov" (Some h2))
    /\ obj_get "url" (pubMedRecord citation)
       = JStr "https://pubmed.ncbi.nlm.nih.govhttps://doi.org/10.1000/1".
Proof.
  exists absolute_video, absolute_citation,
    "https://youtu.be/abc", "https://doi.org/10.1000/1".
  repeat split; try reflexivity; vm_compute; discriminate.
Qed.

Lemma prefixed_spec (origin : string) (link : option string) :
  match link with
  | Some u => if truthy (JStr u) then origin ++ u else ""
  | None => ""
  end = prefixed origin link.
Proof.
  destruct link as [u|]; [|reflexivity]. cbn.
  destruct (u =? "")%string; reflexivity.
Qed.

(** C4, as amended.  For the video and the literature extractor, each
    container gives one record, and its url is the site origin followed by
    the href of the link element whenever that href is there and not empty,
    whether or not it starts with a scheme; the url is empty when the link
    element or its href is missing or empty. *)
Theorem C4_href_always_prefixed (document : Document) :
  (exists rows,
      youTubeExtractor document = Normal rows
      /\ map (obj_get "url") rows
         = map (fun el => JStr (prefixed "https://www.youtube.com"
                                  (link_href "#video-title" el)))
             (querySelectorAll
                "#contents ytd-item-section-renderer > div > ytd-video-renderer"
                document))
  /\
  (exists rows,
      pubMedExtractor document = Normal rows
      /\ map (obj_get "url") rows
         = map (fun el => JStr (prefixed "https://pubmed.ncbi.nlm.nih.gov"
                                  (link_href ".docsum-title > a" el)))
             (querySelectorAll ".pubmed-citation-list > .pubmed-citation" document)).
Proof.
  split; eexists; (split; [reflexivity|]); rewrite map_map; apply map_ext;
    intros el; unfold youTubeRecord, pubMedRecord, link_href;
    rewrite prefixed_spec; reflexivity.
Qed.

(** ** The browser and its page *)

Lemma ensureBrowser_run (w : World) :
  ensureBrowser w = (fst (ensureBrowser w), ensured w).
Proof. unfold ensured. destruct (ensureBrowser w); reflexivity. Qed.

(** The outcomes of [ensureBrowser], one by one. *)
Lemma ensureBrowser_cases (w : World) :
  ensureBrowser w =
  if browser w then
    if page w then (Normal tt, w)
    else match newPage (env w) (newPages w) with
         | None => (Normal tt, set_page true about_blank (tick_newPage w))
         | Some error => (Thrown error, tick_newPage w)
         end
  else
    match launch (env w) (launches w) with
    | Some error => (Thrown error, tick_launch w)
    | None =>
        if page w then (Normal tt, set_browser true (tick_launch w))
        else match newPage (env w) (newPages w) with
             | None =>
                 (Normal tt,
                  set_page true about_blank
                    (tick_newPage (set_browser true (tick_launch w))))
             | Some error =>
                 (Thrown error, tick_newPage (set_browser true (tick_launch w)))
             end
    end.
Proof.
  unfold ensureBrowser, unless, chromium_launch, browser_newPage. monad.
  destruct (browser w) eqn:Hb.
  - destruct (page w) eqn:Hp; [reflexivity|].
    destruct (newPage (env w) (newPages w)); reflexivity.
  - destruct (launch (env w) (launches w)); [reflexivity|]. cbn.
    destruct (page w) eqn:Hp; [reflexivity|].
    destruct (newPage (env w) (newPages w)); reflexivity.
Qed.

(** [ensureBrowser] touches the browser, the page and the count of its
    attempts, and nothing else. *)
Lemma ensured_frame (w : World) :
  env (ensured w) = env w /\ gotos (ensured w) = gotos w
  /\ results (ensured w) = results w /\ log (ensured w) = log w
  /\ clock_reads (ensured w) = clock_reads w /\ uuids (ensured w) = uuids w
  /\ writes (ensured w) = writes w /\ file (ensured w) = file w
  /\ exited (ensured w) = exited w.
Proof.
  unfold ensured. rewrite ensureBrowser_cases.
  destruct (browser w), (page w), (launch (env w) (launches w)),
    (newPage (env w) (newPages w)); cbn; repeat split; reflexivity.
Qed.

(** Once [ensureBrowser] has returned, the browser and the page are there,
    and the next call finds them. *)
Lemma comes_up_ready (w : World) :
  comes_up w ->
  browser (ensured w) = true /\ page (ensured w) = true
  /\ ensureBrowser (ensured w) = (Normal tt, ensured w).
Proof.
  unfold comes_up, ensured. rewrite ensureBrowser_cases.
  destruct (browser w) eqn:Hb, (page w) eqn:Hp,
    (launch (env w) (launches w)), (newPage (env w) (newPages w));
    cbn [fst snd]; intros Hup; try discriminate Hup;
    rewrite ensureBrowser_cases; cbn; rewrite ?Hb, ?Hp; repeat split.
Qed.

Lemma ready_comes_up (w : World) :
  browser w = true -> page w = true -> ensureBrowser w = (Normal tt, w).
Proof. intros Hb Hp. rewrite ensureBrowser_cases, Hb, Hp. reflexivity. Qed.

(** ** The pipelines *)

Lemma forEach_stamp (tag : string) (rows : list JSObject) :
  forall w, forEach rows (stamp tag) w = (Normal tt, fold_left (add_stamped tag) rows w).
Proof.
  induction rows as [|row rest IH]; intros w; [reflexivity|].
  cbn [forEach fold_left]. unfold bind at 1.
  change (stamp tag row w) with (Normal tt, add_stamped tag w row).
  apply IH.
Qed.

Lemma fold_add_stamped (tag : string) (rows : list JSObject) :
  forall w,
    fold_left (add_stamped tag) rows w
    = mkWorld (browser w) (page w) (document w)
        (results w ++ stamp_all tag (clock (env w)) (clock_reads w) rows)
        (file w) (log w) (env w) (launches w) (newPages w) (gotos w)
        (clock_reads w + length rows)%nat (uuids w) (writes w) (exited w).
Proof.
  induction rows as [|row rest IH]; intros w.
  - destruct w; cbn. rewrite app_nil_r, Nat.add_0_r. reflexivity.
  - cbn [fold_left]. rewrite IH. destruct w; cbn.
    rewrite <- app_assoc, Nat.add_succ_r. reflexivity.
Qed.

(** A pipeline run, symbolically: it ends where the browser does not come
    up, where the search URL cannot be put together, where the page does
    not load, where the page function raises or returns no array; or it
    stamps the rows and returns them. *)
Lemma scrape_run (target : Completion string)
    (pageFunction : Document -> Completion Returned) (tag : string) (w : World) :
  scrape target pageFunction tag w =
  match fst (ensureBrowser w), target with
  | Thrown error, _ => (Thrown error, ensured w)
  | Normal _, Thrown error => (Thrown error, ensured w)
  | Normal _, Normal url =>
      match web (env w) (gotos w) url with
      | inl error => (Thrown error, stranded url error w)
      | inr loaded =>
          match pageFunction loaded with
          | Normal (RArray rows) =>
              (Normal rows, fold_left (add_stamped tag) rows (arrived url loaded w))
          | Normal (RValue v) => (Thrown (no_forEach v), arrived url loaded w)
          | Thrown error => (Thrown (rejection (env w) error), arrived url loaded w)
          end
      end
  end.
Proof.
  unfold scrape, safePageNavigation, console_error, completes. monad.
  rewrite ensureBrowser_run.
  destruct (fst (ensureBrowser w)) as [[]|e0]; [|reflexivity].
  destruct target as [url|e1]; [|reflexivity].
  destruct (ensured_frame w) as (Henv & Hgotos & _).
  unfold stranded, arrived, tried, page_goto. rewrite Henv, Hgotos.
  destruct (web (env w) (gotos w) url) as [error|loaded]; [reflexivity|].
  unfold page_evaluate. cbn [document set_page env tick_goto emit].
  rewrite Henv.
  destruct (pageFunction loaded) as [[rows|v]|error]; try reflexivity.
  rewrite forEach_stamp. reflexivity.
Qed.

Lemma nth_error_stamp_all (tag : string) (clock : nat -> string)
    (rows : list JSObject) :
  forall (n k : nat),
    nth_error (stamp_all tag clock n rows) k
    = option_map (stamped tag (clock (n + k)%nat)) (nth_error rows k).
Proof.
  induction rows as [|row rest IH]; intros n k.
  - destruct k; reflexivity.
  - destruct k as [|k]; cbn.
    + rewrite Nat.add_0_r. reflexivity.
    + rewrite IH, Nat.add_succ_r. reflexivity.
Qed.

(** The three pipelines that map over containers are [scrape] with an
    extractor that returns an array of raw rows. *)
Lemma mapping_pipeline_shape (tag selector : string)
    (perform : JSValue -> M World (list JSObject)) (query : JSValue) :
  mapping_pipeline tag perform selector ->
  exists extractor,
    pipeline tag perform
    /\ (forall w,
           perform query w
           = scrape (search_url tag query) (array_of extractor) tag w)
    /\ (forall loaded,
           exists make,
             extractor loaded = Normal (map make (querySelectorAll selector loaded))
             /\ forall el, raw_row tag (make el)).
Proof.
  intros Hm.
  destruct Hm;
    [ exists duckDuckGoExtractor
    | exists youTubeExtractor
    | exists pubMedExtractor ];
    (split; [constructor|]); (split;
      [ intros w;
        unfold performDuckDuckGoSearch, performYouTubeSearch, performPubMedSearch,
          scrape, search_url, address, array_of, completes, page_evaluate;
        cbn [String.eqb Ascii.eqb Bool.eqb];
        monad;
        destruct (ensureBrowser w) as [[[]|e0] w0]; try reflexivity;
        fold specificSearchTerms;
        match goal with
        | |- context [encodeURIComponent ?s] =>
            destruct (encodeURIComponent s) as [encoded|e1]
        end; try reflexivity;
        destruct (safePageNavigation _ w0) as [[[]|e2] w2]; reflexivity
      | intros loaded; eexists; split; [reflexivity|]; intros el; repeat split ]).
Qed.

(** The Google pipeline is [scrape] with the page function that returns
    the global. *)
Lemma google_shape (query : JSValue) (w : World) :
  performGoogleSearch query w
  = scrape (search_url "google" query) googleExtractor "google" w.
Proof.
  unfold performGoogleSearch, scrape, search_url, address, completes.
  cbn [String.eqb Ascii.eqb Bool.eqb]. monad.
  destruct (ensureBrowser w) as [[[]|e0] w0]; [|reflexivity].
  destruct (encodeURIComponent (ToString query)); reflexivity.
Qed.

(** Each of the four pipelines is [scrape] at its search URL with a page
    function. *)
Lemma pipeline_shape (tag : string) (perform : JSValue -> M World (list JSObject))
    (query : JSValue) :
  pipeline tag perform ->
  exists pageFunction,
    forall w, perform query w = scrape (search_url tag query) pageFunction tag w.
Proof.
  intros Hp. destruct Hp.
  - exists googleExtractor. apply google_shape.
  - destruct (mapping_pipeline_shape _ _ _ query mapping_duckduckgo)
      as (extractor & _ & Heq & _). eauto.
  - destruct (mapping_pipeline_shape _ _ _ query mapping_youtube)
      as (extractor & _ & Heq & _). eauto.
  - destruct (mapping_pipeline_shape _ _ _ query mapping_pubmed)
      as (extractor & _ & Heq & _). eauto.
Qed.

(** What any run of [scrape] leaves alone, and how far it goes. *)
Lemma scrape_frame (target : Completion string)
    (pageFunction : Document -> Completion Returned) (tag : string) (w : World) :
  env (snd (scrape target pageFunction tag w)) = env w
  /\ uuids (snd (scrape target pageFunction tag w)) = uuids w
  /\ writes (snd (scrape target pageFunction tag w)) = writes w
  /\ file (snd (scrape target pageFunction tag w)) = file w
  /\ exited (snd (scrape target pageFunction tag w)) = exited w
  /\ extends w (snd (scrape target pageFunction tag w))
  /\ log_extends w (snd (scrape target pageFunction tag w))
  /\ (gotos w <= gotos (snd (scrape target pageFunction tag w)) <= Datatypes.S (gotos w))%nat.
Proof.
  rewrite scrape_run.
  destruct (ensured_frame w) as (He & Hg & Hr & Hl & _ & Hu & Hw & Hf & Hx).
  assert (Hsame : extends w (ensured w) /\ log_extends w (ensured w)).
  { split; exists []; rewrite ?Hr, ?Hl; symmetry; apply app_nil_r. }
  destruct (fst (ensureBrowser w)) as [[]|e0];
    [|cbn [snd]; rewrite He, Hu, Hw, Hf, Hx, Hg; intuition lia].
  destruct target as [url|e1];
    [|cbn [snd]; rewrite He, Hu, Hw, Hf, Hx, Hg; intuition lia].
  destruct (web (env w) (gotos w) url) as [error|loaded].
  - unfold stranded, tried, extends, log_extends. cbn.
    rewrite He, Hg, Hu, Hw, Hf, Hx, Hr, Hl.
    repeat split; try lia.
    + exists []. symmetry. apply app_nil_r.
    + eexists. rewrite <- app_assoc. reflexivity.
  - destruct (pageFunction loaded) as [[rows|v]|error]; cbn [snd];
      rewrite ?fold_add_stamped; unfold arrived, tried, extends, log_extends; cbn;
      rewrite He, Hg, Hu, Hw, Hf, Hx, Hr, Hl; repeat split; try lia;
      try (eexists; reflexivity);
      try (exists []; symmetry; apply app_nil_r).
Qed.

Lemma pipeline_frame_any (tag : string)
    (perform : JSValue -> M World (list JSObject)) (query : JSValue) (w : World) :
  pipeline tag perform ->
  env (snd (perform query w)) = env w
  /\ uuids (snd (perform query w)) = uuids w
  /\ writes (snd (perform query w)) = writes w
  /\ file (snd (perform query w)) = file w
  /\ exited (snd (perform query w)) = exited w
  /\ extends w (snd (perform query w))
  /\ log_extends w (snd (perform query w))
  /\ (gotos w <= gotos (snd (perform query w)) <= Datatypes.S (gotos w))%nat.
Proof.
  intros Hp.
  destruct (pipeline_shape tag perform query Hp) as (pf & Heq).
  rewrite Heq. apply scrape_frame.
Qed.

(** A pipeline run that returns: the browser came up, the page at the
    search URL loaded, and the world is the one the stamping left. *)
Lemma pipeline_returns (tag : string) (perform : JSValue -> M World (list JSObject))
    (query : JSValue) (w w1 : World) (rows : list JSObject) :
  pipeline tag perform ->
  perform query w = (Normal rows, w1) ->
  comes_up w
  /\ exists url loaded,
       search_url tag query = Normal url
       /\ web (env w) (gotos w) url = inr loaded
       /\ w1 = fold_left (add_stamped tag) rows (arrived url loaded w).
Proof.
  intros Hp Hrun.
  destruct (pipeline_shape tag perform query Hp) as (pf & Heq).
  rewrite Heq, scrape_run in Hrun. unfold comes_up.
  destruct (fst (ensureBrowser w)) as [[]|e0]; [|discriminate].
  destruct (search_url tag query) as [url|e1]; [|discriminate].
  destruct (web (env w) (gotos w) url) as [error|loaded] eqn:Hweb; [discriminate|].
  destruct (pf loaded) as [[rows'|v]|error] eqn:Hex; try discriminate.
  inversion Hrun; subst. split; [reflexivity|].
  exists url, loaded. auto.
Qed.

(** What a run that returns leaves of the world it started in. *)
Lemma pipeline_frame (tag : string) (perform : JSValue -> M World (list JSObject))
    (query : JSValue) (w w1 : World) (rows : list JSObject) :
  pipeline tag perform ->
  perform query w = (Normal rows, w1) ->
  results w1 = (results w ++ stamp_all tag (clock (env w)) (clock_reads w) rows)%list
  /\ env w1 = env w /\ uuids w1 = uuids w /\ writes w1 = writes w
  /\ file w1 = file w /\ gotos w1 = Datatypes.S (gotos w)
  /\ clock_reads w1 = (clock_reads w + length rows)%nat
  /\ exited w1 = exited w.
Proof.
  intros Hp Hrun.
  destruct (pipeline_returns _ _ _ _ _ _ Hp Hrun) as (_ & url & loaded & _ & _ & ->).
  rewrite fold_add_stamped. unfold arrived, tried.
  cbn [results env uuids writes file gotos clock_reads exited set_page tick_goto emit].
  destruct (ensured_frame w) as (-> & -> & -> & _ & -> & -> & -> & -> & ->).
  repeat split.
Qed.

(** The rows a mapping pipeline returns are raw. *)
Lemma mapping_pipeline_rows (tag selector : string)
    (perform : JSValue -> M World (list JSObject))
    (query : JSValue) (w w1 : World) (rows : list JSObject) :
  mapping_pipeline tag perform selector ->
  perform query w = (Normal rows, w1) ->
  Forall (raw_row tag) rows.
Proof.
  intros Hm Hrun.
  destruct (mapping_pipeline_shape tag selector perform query Hm)
    as (extractor & _ & Heq & Hrows).
  rewrite Heq, scrape_run in Hrun.
  destruct (fst (ensureBrowser w)) as [[]|e0]; [|discriminate].
  destruct (search_url tag query) as [url|e1]; [|discriminate].
  destruct (web (env w) (gotos w) url) as [error|loaded]; [discriminate|].
  unfold array_of in Hrun. destruct (Hrows loaded) as (make & Hex & Hraw).
  rewrite Hex in Hrun. inversion Hrun; subst.
  apply Forall_forall. intros row Hin. apply in_map_iff in Hin.
  destruct Hin as (el & <- & _). apply Hraw.
Qed.

(** A run of a pipeline with the browser up and the search URL formed makes
    one page load. *)
Lemma pipeline_navigates (tag : string)
    (perform : JSValue -> M World (list JSObject)) (query : JSValue) (w : World)
    (url : string) :
  pipeline tag perform ->
  comes_up w ->
  search_url tag query = Normal url ->
  gotos (snd (perform query w)) = Datatypes.S (gotos w)
  /\ exists rest, log (snd (perform query w)) = (log w ++ Goto url :: rest)%list.
Proof.
  intros Hp Hup Hurl.
  destruct (pipeline_shape tag perform query Hp) as (pf & Heq).
  rewrite Heq, scrape_run, Hup, Hurl.
  destruct (ensured_frame w) as (_ & Hg & _ & Hl & _).
  destruct (web (env w) (gotos w) url) as [error|loaded].
  - unfold stranded, tried. cbn. rewrite Hg, Hl, <- app_assoc.
    split; [reflexivity|]. eexists. reflexivity.
  - destruct (pf loaded) as [[rows|v]|error]; cbn [snd];
      rewrite ?fold_add_stamped; unfold arrived, tried; cbn; rewrite Hg, Hl;
      (split; [reflexivity|]); eexists; reflexivity.
Qed.

(** A run of a pipeline for which the browser does not come up ends there:
    the error of the launch, or of the opening of the page, comes out, and
    no page load is attempted. *)
Lemma pipeline_no_browser (tag : string)
    (perform : JSValue -> M World (list JSObject)) (query : JSValue) (w : World)
    (error : Error) :
  pipeline tag perform ->
  fst (ensureBrowser w) = Thrown error ->
  perform query w = (Thrown error, ensured w).
Proof.
  intros Hp Hdown.
  destruct (pipeline_shape tag perform query Hp) as (pf & Heq).
  rewrite Heq, scrape_run, Hdown. reflexivity.
Qed.

(** ** The Google page function *)

(** A run of the Google pipeline that meets no page with a global
    [searchResults] does not return, and leaves the store as it was. *)
Lemma google_run (query : JSValue) (w : World) :
  (forall url loaded,
      web (env w) (gotos w) url = inr loaded -> window_searchResults loaded = None) ->
  exists e w1,
    performGoogleSearch query w = (Thrown e, w1) /\ results w1 = results w.
Proof.
  intros Hnone. rewrite google_shape, scrape_run.
  destruct (ensured_frame w) as (_ & _ & Hres & _).
  destruct (fst (ensureBrowser w)) as [[]|e0]; [|eauto].
  destruct (search_url "google" query) as [url|e1]; [|eauto].
  destruct (web (env w) (gotos w) url) as [error|loaded] eqn:Hweb.
  - eexists; eexists; split; [reflexivity|]. cbn. exact Hres.
  - unfold googleExtractor. rewrite (Hnone url loaded Hweb).
    eexists; eexists; split; [reflexivity|]. cbn. exact Hres.
Qed.

(** C8, at the Google page function.  For the container that has its link
    and its snippet and no title element the function builds the record
    with the empty title, and then does not return it: on a page without a
    global [searchResults] the reference raises, on a page with one the
    value of the global is returned in place of the records.  So a run of
    [performGoogleSearch] that meets no such global does not return, and no
    record reaches the store. *)
Theorem C8_google_extractor_yields_no_record :
  googleRecord untitled_result
  = [ ("title", JStr ""); ("url", JStr "https://rocq-prover.org/");
      ("snippet", JStr "A proof assistant.") ]
  /\ (forall document : Document,
         window_searchResults document = None ->
         googleExtractor document
         = Thrown (mkError "ReferenceError" "searchResults is not defined"))
  /\ (forall (document : Document) (value : Returned),
         window_searchResults document = Some value ->
         googleExtractor document = Normal value)
  /\ (forall (query : JSValue) (w : World),
         (forall url loaded,
             web (env w) (gotos w) url = inr loaded ->
             window_searchResults loaded = None) ->
         exists e w1,
           performGoogleSearch query w = (Thrown e, w1) /\ results w1 = results w).
Proof.
  split; [reflexivity|]. split; [|split].
  - intros document Hnone. unfold googleExtractor. rewrite Hnone. reflexivity.
  - intros document value Hsome. unfold googleExtractor. rewrite Hsome. reflexivity.
  - exact google_run.
Qed.

(** ** Stamping a row *)

Lemma obj_get_set (k k' : string) (v : JSValue) (o : JSObject) :
  obj_get k' (obj_set k v o) = if (k' =? k)%string then v else obj_get k' o.
Proof.
  induction o as [|[k1 v1] rest IH]; cbn; [reflexivity|].
  destruct (String.eqb_spec k k1) as [->|Hne]; cbn.
  - destruct (k' =? k1)%string; reflexivity.
  - rewrite IH. destruct (String.eqb_spec k' k1) as [->|Hne'].
    + destruct (String.eqb_spec k1 k) as [Heq|_]; [congruence | reflexivity].
    + reflexivity.
Qed.

Lemma has_own_In (k : string) (o : JSObject) :
  has_own k o = true <-> In k (map fst o).
Proof.
  unfold has_own. rewrite existsb_exists, in_map_iff. split.
  - intros ([k1 v1] & Hin & Heq). apply String.eqb_eq in Heq. subst.
    exists (k1, v1). auto.
  - intros ([k1 v1] & Heq & Hin). cbn in Heq. subst.
    exists (k, v1). split; [assumption|]. apply String.eqb_refl.
Qed.

Lemma obj_get_spread (k : string) (src : JSObject) :
  NoDup (map fst src) ->
  forall dst,
    obj_get k (obj_spread src dst)
    = if has_own k src then obj_get k src else obj_get k dst.
Proof.
  unfold obj_spread.
  induction src as [|[k1 v1] rest IH]; intros Hnd dst; [reflexivity|].
  inversion Hnd as [|? ? Hnotin Hnd']; subst.
  cbn [fold_left fst snd]. rewrite (IH Hnd'), obj_get_set.
  unfold has_own at 2. cbn [existsb fst obj_get].
  fold (has_own k rest).
  destruct (String.eqb_spec k k1) as [->|Hne]; cbn [orb].
  - destruct (has_own k1 rest) eqn:Hown; [|reflexivity].
    apply has_own_In in Hown. contradiction.
  - reflexivity.
Qed.

Lemma has_own_set (k k' : string) (v : JSValue) (o : JSObject) :
  has_own k' (obj_set k v o) = ((k' =? k)%string || has_own k' o).
Proof.
  unfold has_own.
  induction o as [|[k1 v1] rest IH]; cbn; [reflexivity|].
  destruct (String.eqb_spec k k1) as [->|Hne]; cbn.
  - destruct (k' =? k1)%string; reflexivity.
  - rewrite IH. destruct (k' =? k)%string, (k' =? k1)%string; reflexivity.
Qed.

Lemma has_own_spread (k : string) (src : JSObject) :
  forall dst, has_own k (obj_spread src dst) = (has_own k src || has_own k dst).
Proof.
  unfold obj_spread.
  induction src as [|[k1 v1] rest IH]; intros dst; [reflexivity|].
  cbn [fold_left fst snd]. rewrite IH, has_own_set.
  unfold has_own at 3. cbn [existsb fst]. fold (has_own k rest).
  destruct (has_own k rest), (k =? k1)%string, (has_own k dst); reflexivity.
Qed.

(** A name the row does not have is looked up in what was there before the
    row was spread. *)
Lemma obj_get_spread_missing (k : string) (src : JSObject) :
  has_own k src = false ->
  forall dst, obj_get k (obj_spread src dst) = obj_get k dst.
Proof.
  unfold obj_spread.
  induction src as [|[k1 v1] rest IH]; intros Hmiss dst; [reflexivity|].
  unfold has_own in Hmiss. cbn [existsb fst] in Hmiss.
  apply orb_false_iff in Hmiss. destruct Hmiss as (Hk & Hrest).
  cbn [fold_left fst snd]. rewrite (IH Hrest), obj_get_set, Hk. reflexivity.
Qed.

(** What every stamped record has, whatever the row. *)
Lemma stamped_fields (tag timestamp : string) (row : JSObject) :
  has_own "type" (stamped tag timestamp row) = true
  /\ has_own "timestamp" (stamped tag timestamp row) = true
  /\ obj_get "timestamp" (stamped tag timestamp row) = JStr timestamp
  /\ (has_own "type" row = false ->
      obj_get "type" (stamped tag timestamp row) = JStr tag)
  /\ (NoDup (map fst row) -> has_own "type" row = true ->
      obj_get "type" (stamped tag timestamp row) = obj_get "type" row).
Proof.
  unfold stamped. rewrite !has_own_set, !obj_get_set, has_own_spread.
  cbn [String.eqb Ascii.eqb Bool.eqb orb].
  repeat split.
  - destruct (has_own "type" row); reflexivity.
  - intros Hmiss. rewrite (obj_get_spread_missing "type" row Hmiss). reflexivity.
  - intros Hnd Hown. rewrite (obj_get_spread "type" row Hnd), Hown. reflexivity.
Qed.

(** C5, counterexample.  A DuckDuckGo run over a page with two results: the
    two records put in the store carry [type] and [timestamp], the two rows
    returned carry neither, so what is returned is not what was stored. *)
Lemma C5_returned_rows_carry_no_stamp :
  exists rows w1,
    performDuckDuckGoSearch (JStr "rocq") (start (example_env 0 ddg_page true) [])
    = (Normal rows, w1)
    /\ length rows = 2%nat
    /\ forallb (fun row => has_own "type" row || has_own "timestamp" row) rows = false
    /\ forallb (fun row => has_own "type" row && has_own "timestamp" row) (results w1)
       = true
    /\ rows <> results w1.
Proof.
  eexists. eexists. split; [vm_compute; reflexivity|].
  repeat split; try reflexivity. vm_compute. discriminate.
Qed.

Lemma length_stamp_all (tag : string) (clock : nat -> string) (rows : list JSObject) :
  forall n, length (stamp_all tag clock n rows) = length rows.
Proof. induction rows; intros n; cbn; auto. Qed.

(** C5, as amended.  Every record a pipeline run appends to the store is
    the row in question stamped: it has a [type] and it has a [timestamp],
    the timestamp being the reading of the clock taken when that record was
    appended, and the records are appended in the order of the rows.  The
    [type] is the engine tag for a row that brings none, and the row's own
    otherwise.  The sequence the run returns is the sequence of rows as
    [page.evaluate] handed them over, not the records; in the three
    pipelines whose page function maps over the containers these rows carry
    neither [type] nor [timestamp], and the record is the row with the tag
    in front and the timestamp behind. *)
Theorem C5_store_is_stamped_return_is_raw (tag : string)
    (perform : JSValue -> M World (list JSObject))
    (query : JSValue) (w w1 : World) (rows : list JSObject) :
  pipeline tag perform ->
  perform query w = (Normal rows, w1) ->
  results w1 = (results w ++ stamp_all tag (clock (env w)) (clock_reads w) rows)%list
  /\ length (stamp_all tag (clock (env w)) (clock_reads w) rows) = length rows
  /\ (forall k row,
         nth_error rows k = Some row ->
         exists record,
           nth_error (stamp_all tag (clock (env w)) (clock_reads w) rows) k
           = Some record
           /\ has_own "type" record = true
           /\ has_own "timestamp" record = true
           /\ obj_get "timestamp" record
              = JStr (clock (env w) (clock_reads w + k)%nat)
           /\ (has_own "type" row = false -> obj_get "type" record = JStr tag)
           /\ (NoDup (map fst row) -> has_own "type" row = true ->
               obj_get "type" record = obj_get "type" row))
  /\ (forall selector,
         mapping_pipeline tag perform selector ->
         forall k row,
           nth_error rows k = Some row ->
           has_own "type" row = false /\ has_own "timestamp" row = false
           /\ nth_error (stamp_all tag (clock (env w)) (clock_reads w) rows) k
              = Some (("type", JStr tag)
                        :: row ++ [("timestamp",
                                    JStr (clock (env w) (clock_reads w + k)%nat))])%list).
Proof.
  intros Hp Hrun.
  destruct (pipeline_frame _ _ _ _ _ _ Hp Hrun) as (Hres & _).
  split; [assumption|]. split; [apply length_stamp_all|]. split.
  - intros k row Hk. rewrite nth_error_stamp_all, Hk. cbn [option_map].
    eexists. split; [reflexivity|]. apply stamped_fields.
  - intros selector Hm k row Hk.
    pose proof (mapping_pipeline_rows _ _ _ _ _ _ _ Hm Hrun) as Hraw.
    assert (Hrow : raw_row tag row).
    { rewrite Forall_forall in Hraw. apply Hraw. eapply nth_error_In; eassumption. }
    destruct Hrow as (Htype & Hstamp & Hlit).
    rewrite nth_error_stamp_all, Hk. cbn. rewrite Hlit. auto.
Qed.

(** ** The HTTP endpoint *)

Lemma registered_pipeline (engine : JSValue) :
  registered engine = true ->
  exists tag perform, engine = JStr tag /\ pipeline tag perform.
Proof.
  unfold registered, is_string. destruct engine as [| |b|n|s]; try discriminate.
  intros H. repeat (apply orb_true_iff in H; destruct H as [H|H]);
    apply String.eqb_eq in H; subst; eexists; eexists; split;
    try reflexivity; constructor.
Qed.

Lemma pipeline_registered (tag : string)
    (perform : JSValue -> M World (list JSObject)) :
  pipeline tag perform -> registered (JStr tag) = true /\ truthy (JStr tag) = true.
Proof. intros Hp; destruct Hp; split; reflexivity. Qed.

(** A request that fails validation: answered 400, the world untouched. *)
Lemma postSearch_invalid (body : JSObject) (w : World) :
  truthy (obj_get "query" body) = false \/ truthy (obj_get "engine" body) = false ->
  postSearch body w
  = (mkResponse 400 (Some (400, ErrorBody "Query and engine are required")), w).
Proof.
  intros H. unfold postSearch, searchHandler.
  replace (negb (truthy (obj_get "query" body)) || negb (truthy (obj_get "engine" body)))
    with true by (destruct H as [-> | ->]; cbn; rewrite ?orb_true_r; reflexivity).
  reflexivity.
Qed.

(** A request for an engine the switch does not know: the store has been
    cleared by the time the 400 goes out. *)
Lemma postSearch_unknown (body : JSObject) (w : World) :
  truthy (obj_get "query" body) = true ->
  truthy (obj_get "engine" body) = true ->
  registered (obj_get "engine" body) = false ->
  postSearch body w
  = (mkResponse 400 (Some (400, ErrorBody "Invalid search engine")),
     set_results [] w).
Proof.
  intros Hq He Hr. unfold postSearch, searchHandler. rewrite Hq, He.
  unfold registered in Hr.
  repeat (apply orb_false_iff in Hr; destruct Hr as [Hr ?]).
  cbn [negb orb]. monad. cbn [world res pending].
  repeat match goal with H : is_string _ _ = false |- _ => rewrite H; clear H end.
  reflexivity.
Qed.

(** A request whose pipeline run returns: the snapshot goes out with status
    200 before the disk has answered; the disk's answer changes the world,
    and not what went out. *)
Lemma postSearch_returns (body : JSObject) (w w1 : World) (rows : list JSObject)
    (tag : string) (perform : JSValue -> M World (list JSObject)) :
  truthy (obj_get "query" body) = true ->
  obj_get "engine" body = JStr tag ->
  pipeline tag perform ->
  perform (obj_get "query" body) (set_results [] w) = (Normal rows, w1) ->
  postSearch body w =
  let payload :=
    SearchBody (uuid (env w1) (uuids w1)) (obj_get "query" body) (JStr tag)
      (results w1) in
  match disk (env w1) (writes w1) with
  | None => (mkResponse 200 (Some (200, payload)), written payload w1)
  | Some err => (mkResponse 500 (Some (200, payload)), refused err w1)
  end.
Proof.
  intros Hq He Hp Hrun.
  unfold postSearch, searchHandler. rewrite Hq, He.
  destruct Hp; cbn [truthy negb orb is_string String.eqb Ascii.eqb Bool.eqb];
    monad; cbn [world res pending];
    rewrite Hrun; unfold uuidv4, snapshot, fs_writeFile, res_json;
    monad; cbn [world res pending sent app complete_writes statusCode];
    unfold complete_write; cbn [world res pending env writes tick_uuid];
    (destruct (disk (env w1) (writes w1)) as [err|]; reflexivity).
Qed.

(** A request whose pipeline run throws: answered 500 with the message. *)
Lemma postSearch_throws (body : JSObject) (w w1 : World) (error : Error)
    (tag : string) (perform : JSValue -> M World (list JSObject)) :
  truthy (obj_get "query" body) = true ->
  obj_get "engine" body = JStr tag ->
  pipeline tag perform ->
  perform (obj_get "query" body) (set_results [] w) = (Thrown error, w1) ->
  postSearch body w
  = (mkResponse 500 (Some (500, FailureBody "Search failed" (message error))),
     emit (Console LevelError "Search failed:" (Some error)) w1).
Proof.
  intros Hq He Hp Hrun.
  unfold postSearch, searchHandler. rewrite Hq, He.
  destruct Hp; cbn [truthy negb orb is_string String.eqb Ascii.eqb Bool.eqb];
    monad; cbn [world res pending];
    rewrite Hrun; reflexivity.
Qed.

(** The world an HTTP request leaves when its pipeline run has returned
    [rows]: the outside is the same, one id and one clock reading per row
    have been used, and the store holds the stamped rows. *)
Lemma postSearch_returns_frame (body : JSObject) (w w1 : World)
    (rows : list JSObject) (tag : string)
    (perform : JSValue -> M World (list JSObject)) :
  truthy (obj_get "query" body) = true ->
  obj_get "engine" body = JStr tag ->
  pipeline tag perform ->
  perform (obj_get "query" body) (set_results [] w) = (Normal rows, w1) ->
  env (snd (postSearch body w)) = env w
  /\ uuids (snd (postSearch body w)) = Datatypes.S (uuids w)
  /\ clock_reads (snd (postSearch body w)) = (clock_reads w + length rows)%nat
  /\ results (snd (postSearch body w))
     = stamp_all tag (clock (env w)) (clock_reads w) rows
  /\ received (postSearch body w)
     = Some (200, SearchBody (uuid (env w) (uuids w)) (obj_get "query" body)
                    (JStr tag) (stamp_all tag (clock (env w)) (clock_reads w) rows))
  /\ writes (snd (postSearch body w)) = Datatypes.S (writes w)
  /\ file (snd (postSearch body w))
     = match disk (env w) (writes w) with
       | None =>
           Some (SearchBody (uuid (env w) (uuids w)) (obj_get "query" body)
                   (JStr tag) (stamp_all tag (clock (env w)) (clock_reads w) rows))
       | Some _ => file w
       end
  /\ exited (snd (postSearch body w))
     = match disk (env w) (writes w) with
       | None => exited w
       | Some _ => Some headers_sent
       end
  /\ log (snd (postSearch body w))
     = (log w1
        ++ match disk (env w) (writes w) with
           | None =>
               [Console LevelLog "Search results written to file successfully" None]
           | Some err =>
               [Console LevelError "Error writing to file:" (Some err);
                Uncaught headers_sent]
           end)%list.
Proof.
  intros Hq He Hp Hrun.
  rewrite (postSearch_returns body w w1 rows tag perform Hq He Hp Hrun).
  destruct (pipeline_frame _ _ _ _ _ _ Hp Hrun)
    as (Hres & Henv & Huuid & Hwrites & Hfile & _ & Hclock & Hexit).
  cbn in Hres, Henv, Huuid, Hwrites, Hfile, Hclock, Hexit. cbn zeta.
  rewrite Henv, Hwrites.
  destruct (disk (env w) (writes w)); unfold received, written, refused, crash; cbn;
    rewrite ?Hres, ?Henv, ?Huuid, ?Hclock, ?Hwrites, ?Hfile, ?Hexit,
      <- ?app_assoc;
    repeat split.
Qed.

(** C3, at a write the disk refuses.  A request whose pipeline run returns
    is answered with status 200 and the records in the store before the
    write of the snapshot completes, so that is what the client receives
    whatever the disk does.  When the disk refuses the snapshot, the
    callback writes the refusal to the console and the file stays as it
    was.  The callback does not stop there: it calls
    [res.status(500).json(...)] on the response that has gone out, express
    raises, nobody catches what it raises, and the process ends on it. *)
Theorem C3_refused_write_answers_again (body : JSObject) (w w1 : World)
    (rows : list JSObject) (tag : string)
    (perform : JSValue -> M World (list JSObject)) (err : Error) :
  truthy (obj_get "query" body) = true ->
  obj_get "engine" body = JStr tag ->
  pipeline tag perform ->
  perform (obj_get "query" body) (set_results [] w) = (Normal rows, w1) ->
  disk (env w) (writes w) = Some err ->
  received (postSearch body w)
  = Some (200, SearchBody (uuid (env w) (uuids w)) (obj_get "query" body)
                 (JStr tag) (stamp_all tag (clock (env w)) (clock_reads w) rows))
  /\ log (snd (postSearch body w))
     = (log w1 ++ [Console LevelError "Error writing to file:" (Some err);
                   Uncaught headers_sent])%list
  /\ exited (snd (postSearch body w)) = Some headers_sent
  /\ file (snd (postSearch body w)) = file w.
Proof.
  intros Hq He Hp Hrun Hdisk.
  destruct (postSearch_returns_frame body w w1 rows tag perform Hq He Hp Hrun)
    as (_ & _ & _ & _ & Hrecv & _ & Hfile & Hexit & Hlog).
  rewrite Hdisk in Hfile, Hexit, Hlog. auto.
Qed.

(** C10, counterexample.  Query and engine are both there, the query being
    the empty string, and the engine is not one of the four: validation
    answers, and the store keeps what it held. *)
Lemma C10_present_but_empty_query_keeps_store :
  has_own "query" (search_request "" "bing") = true
  /\ has_own "engine" (search_request "" "bing") = true
  /\ registered (obj_get "engine" (search_request "" "bing")) = false
  /\ postSearch (search_request "" "bing")
       (start (example_env 0 ddg_page true) [leftover])
     = (mkResponse 400 (Some (400, ErrorBody "Query and engine are required")),
        start (example_env 0 ddg_page true) [leftover])
  /\ results (start (example_env 0 ddg_page true) [leftover]) = [leftover].
Proof. repeat split. Qed.

(** C10, as amended.  A request whose query and engine are both truthy, so
    that it passes validation, the engine not being one of the four of the
    switch: it is answered 400, [Invalid search engine], and the store is
    empty afterwards whatever it held before; nothing else of the world has
    changed. *)
Theorem C10_unknown_engine_clears_store (body : JSObject) (w : World) :
  truthy (obj_get "query" body) = true ->
  truthy (obj_get "engine" body) = true ->
  registered (obj_get "engine" body) = false ->
  received (postSearch body w) = Some (400, ErrorBody "Invalid search engine")
  /\ results (snd (postSearch body w)) = []
  /\ snd (postSearch body w) = set_results [] w.
Proof.
  intros Hq He Hr. rewrite (postSearch_unknown body w Hq He Hr).
  repeat split.
Qed.

(** The search URL for the empty query is formed, for each pipeline. *)
Lemma search_url_empty (tag : string)
    (perform : JSValue -> M World (list JSObject)) :
  pipeline tag perform -> exists url, search_url tag (JStr "") = Normal url.
Proof. intros Hp; destruct Hp; eexists; vm_compute; reflexivity. Qed.

(** C7, counterexample.  The query is there and is the empty string, the
    engine is one of the four: the request is refused by validation, and no
    page load is attempted. *)
Lemma C7_empty_query_is_rejected :
  has_own "query" (search_request "" "google") = true
  /\ obj_get "query" (search_request "" "google") = JStr ""
  /\ postSearch (search_request "" "google") (start (example_env 0 google_page true) [])
     = (mkResponse 400 (Some (400, ErrorBody "Query and engine are required")),
        start (example_env 0 google_page true) []).
Proof. repeat split. Qed.

(** C7, as amended.  The endpoint answers 400, [Query and engine are
    required], exactly when the query or the engine of the body is falsy:
    missing, or null, false, zero or the empty string.  It answers 400,
    [Invalid search engine], when both are truthy and the engine is not one
    of the four.  A query that is the empty string is therefore refused by
    validation, and the world is left as it was: no navigation.  The
    pipelines themselves do not validate: called with the empty string they
    attempt one page load, provided the browser and its page come up; where
    they do not, the run ends on that error before any page load. *)
Theorem C7_validation_is_by_truthiness (body : JSObject) (w : World) :
  (received (postSearch body w)
   = Some (400, ErrorBody "Query and engine are required")
   <-> truthy (obj_get "query" body) = false
       \/ truthy (obj_get "engine" body) = false)
  /\ (truthy (obj_get "query" body) = true ->
      truthy (obj_get "engine" body) = true ->
      registered (obj_get "engine" body) = false ->
      received (postSearch body w) = Some (400, ErrorBody "Invalid search engine"))
  /\ (obj_get "query" body = JStr "" ->
      postSearch body w
      = (mkResponse 400 (Some (400, ErrorBody "Query and engine are required")), w))
  /\ (forall tag perform,
         pipeline tag perform ->
         comes_up w ->
         gotos (snd (perform (JStr "") w)) = Datatypes.S (gotos w))
  /\ (forall tag perform error,
         pipeline tag perform ->
         fst (ensureBrowser w) = Thrown error ->
         fst (perform (JStr "") w) = Thrown error
         /\ gotos (snd (perform (JStr "") w)) = gotos w).
Proof.
  split; [|split; [|split; [|split]]].
  - split.
    + intros Hrecv.
      destruct (truthy (obj_get "query" body)) eqn:Hq; [|auto].
      destruct (truthy (obj_get "engine" body)) eqn:He; [|auto].
      exfalso.
      destruct (registered (obj_get "engine" body)) eqn:Hr.
      * destruct (registered_pipeline _ Hr) as (tag & perform & Heng & Hp).
        destruct (perform (obj_get "query" body) (set_results [] w))
          as [[rows|error] w1] eqn:Hrun.
        -- rewrite (postSearch_returns body w w1 rows tag perform Hq Heng Hp Hrun)
             in Hrecv.
           cbn zeta in Hrecv.
           destruct (disk (env w1) (writes w1)); discriminate Hrecv.
        -- rewrite (postSearch_throws body w w1 error tag perform Hq Heng Hp Hrun)
             in Hrecv.
           discriminate Hrecv.
      * rewrite (postSearch_unknown body w Hq He Hr) in Hrecv. discriminate Hrecv.
    + intros H. rewrite (postSearch_invalid body w H). reflexivity.
  - intros Hq He Hr. rewrite (postSearch_unknown body w Hq He Hr). reflexivity.
  - intros Hempty. apply postSearch_invalid. left. rewrite Hempty. reflexivity.
  - intros tag perform Hp Hup.
    destruct (search_url_empty tag perform Hp) as (url & Hurl).
    exact (proj1 (pipeline_navigates tag perform (JStr "") w url Hp Hup Hurl)).
  - intros tag perform error Hp Hdown.
    rewrite (pipeline_no_browser tag perform (JStr "") w error Hp Hdown).
    split; [reflexivity|]. cbn [snd].
    destruct (ensured_frame w) as (_ & Hg & _). exact Hg.
Qed.

(** ** The tool handler *)

(** What every invocation and every pause respects, the whole loop
    respects. *)
Lemma retry_loop_invariant {S A} `{Host S} (R : S -> S -> Prop)
    (operation : M S A) (maxRetries delay : Z)
    (Rrefl : forall s, R s s)
    (Rtrans : forall a b c, R a b -> R b c -> R a c)
    (Rop : forall s, R s (snd (operation s)))
    (Rpause : forall k s, R s (pause delay k s)) (n : nat) :
  forall (attempt : Z) (s : S),
    (Z.to_nat (maxRetries - attempt) <= n)%nat ->
    R s (snd (retry_loop operation maxRetries delay attempt s)).
Proof.
  induction n as [|n IH]; intros attempt s Hn; rewrite retry_loop_step;
    destruct (Z_lt_dec attempt maxRetries) as [Hlt|_]; try lia; try apply Rrefl.
  specialize (Rop s).
  destruct (operation s) as [[v|e] s1]; cbn [snd] in *; [assumption|].
  destruct (Z.eq_dec (attempt + 1) maxRetries) as [_|Hne]; [assumption|].
  eapply Rtrans; [eassumption|]. eapply Rtrans; [apply Rpause|].
  apply IH. lia.
Qed.

Lemma extends_refl (w : World) : extends w w.
Proof. exists []. symmetry. apply app_nil_r. Qed.

Lemma extends_trans (a b c : World) : extends a b -> extends b c -> extends a c.
Proof.
  intros [x Hx] [y Hy]. exists (x ++ y)%list. rewrite Hy, Hx. symmetry. apply app_assoc.
Qed.

Lemma pipeline_extends (tag : string)
    (perform : JSValue -> M World (list JSObject)) (query : JSValue) (w : World) :
  pipeline tag perform -> extends w (snd (perform query w)).
Proof. intros Hp. apply (pipeline_frame_any tag perform query w Hp). Qed.

Lemma tool_case_extends (label tag : string)
    (perform : JSValue -> M World (list JSObject)) (arguments : JSObject) (w : World) :
  pipeline tag perform -> extends w (snd (tool_case label perform arguments w)).
Proof.
  intros Hp. unfold tool_case. monad.
  pose proof (retry_loop_invariant extends
                (perform (obj_get "query" arguments)) 3 1000
                extends_refl extends_trans
                (fun s => pipeline_extends tag perform _ s Hp)
                (fun k s => extends_refl s) 3 0 w (Nat.le_refl _)) as Hloop.
  unfold withRetry.
  destruct (retry_loop _ 3 1000 0 w) as [[rows|error] w1]; exact Hloop.
Qed.

(** X5. The tool handler never clears the store: whatever the tool and the
    arguments, the records the store held are still there, in front. *)
Lemma toolHandler_extends (name : string) (arguments : JSObject) (w : World) :
  extends w (snd (toolHandler name arguments w)).
Proof.
  unfold toolHandler. monad. rewrite ensureBrowser_run.
  assert (He : extends w (ensured w)).
  { exists []. destruct (ensured_frame w) as (_ & _ & -> & _).
    symmetry. apply app_nil_r. }
  destruct (fst (ensureBrowser w)) as [[]|e0]; [|exact He].
  repeat match goal with
         | |- context [if ?c then _ else _] => destruct c
         end;
    try (eapply extends_trans; [exact He|];
         eapply tool_case_extends; constructor).
  exact He.
Qed.

(** The case of the switch a tool name selects. *)
Lemma tool_pipeline (name label tag : string)
    (perform : JSValue -> M World (list JSObject)) :
  tool name label tag perform ->
  pipeline tag perform
  /\ forall arguments w,
       toolHandler name arguments w
       = match fst (ensureBrowser w) with
         | Normal _ => tool_case label perform arguments (ensured w)
         | Thrown error => (Thrown error, ensured w)
         end.
Proof.
  intros Ht. destruct Ht; (split; [constructor|]); intros arguments w;
    unfold toolHandler; monad; rewrite ensureBrowser_run;
    destruct (fst (ensureBrowser w)) as [[]|e0]; reflexivity.
Qed.

(** The browser and the page stay where a navigation, a pause or the
    clearing of the store finds them. *)
Lemma stranded_frame (url : string) (error : Error) (w : World) :
  env (stranded url error w) = env w
  /\ gotos (stranded url error w) = Datatypes.S (gotos w)
  /\ results (stranded url error w) = results w
  /\ log (stranded url error w)
     = (log w ++ [Goto url;
                  Console LevelError ("Navigation to " ++ url ++ " failed:")
                    (Some error)])%list
  /\ (comes_up w -> comes_up (stranded url error w)).
Proof.
  unfold stranded, tried. cbn.
  destruct (ensured_frame w) as (-> & -> & -> & -> & _).
  rewrite <- app_assoc. repeat split.
  intros Hup. destruct (comes_up_ready w Hup) as (Hb & Hp & _).
  unfold comes_up. rewrite ensureBrowser_cases. cbn. rewrite Hb, Hp. reflexivity.
Qed.

Lemma pause_frame (delay attempt : Z) (w : World) :
  env (pause delay attempt w) = env w
  /\ gotos (pause delay attempt w) = gotos w
  /\ results (pause delay attempt w) = results w
  /\ log (pause delay attempt w)
     = (log w ++ [TimerWait delay;
                  Console LevelWarn
                    ("Attempt " ++ decimal attempt ++ " failed, retrying...") None])%list
  /\ uuids (pause delay attempt w) = uuids w
  /\ (comes_up w -> comes_up (pause delay attempt w)).
Proof.
  unfold pause. cbn. rewrite <- app_assoc. repeat split.
  unfold comes_up. rewrite !ensureBrowser_cases. cbn.
  destruct (browser w), (page w), (launch (env w) (launches w)),
    (newPage (env w) (newPages w)); cbn; auto.
Qed.

Lemma comes_up_set_results (r : list JSObject) (w : World) :
  comes_up w -> comes_up (set_results r w).
Proof.
  unfold comes_up. rewrite !ensureBrowser_cases. cbn.
  destruct (browser w), (page w), (launch (env w) (launches w)),
    (newPage (env w) (newPages w)); cbn; auto.
Qed.

Lemma comes_up_ensured (w : World) : comes_up w -> comes_up (ensured w).
Proof.
  intros Hup. destruct (comes_up_ready w Hup) as (_ & _ & Hrun).
  unfold comes_up. rewrite Hrun. reflexivity.
Qed.

(** One scrape with the browser up and the network down: the error of the
    load comes out, and the attempt and the report of its failure are on
    the log. *)
Lemma scrape_offline (url : string)
    (pageFunction : Document -> Completion Returned) (tag : string)
    (w : World) (error : Error) :
  comes_up w ->
  web (env w) (gotos w) url = inl error ->
  scrape (Normal url) pageFunction tag w = (Thrown error, stranded url error w).
Proof. intros Hup Hweb. rewrite scrape_run, Hup, Hweb. reflexivity. Qed.

(** X4. Under the tool handler a navigation that keeps failing is tried
    three times, 1000 ms apart, before the failure is reported: as a
    result, flagged, that names the engine and carries the message of the
    third error.  The browser and the page are taken to come up, and the
    query to be one that can be encoded. *)
Theorem toolHandler_retries_navigation (name label tag url : string)
    (perform : JSValue -> M World (list JSObject)) (arguments : JSObject)
    (w : World) (e1 e2 e3 : Error) :
  tool name label tag perform ->
  comes_up w ->
  encodable (obj_get "query" arguments) = true ->
  search_url tag (obj_get "query" arguments) = Normal url ->
  web (env w) (gotos w) url = inl e1 ->
  web (env w) (1 + gotos w)%nat url = inl e2 ->
  web (env w) (2 + gotos w)%nat url = inl e3 ->
  fst (toolHandler name arguments w)
  = Normal (mkToolResult
              (PlainText ("Failed to perform " ++ label ++ " search: " ++ message e3))
              true)
  /\ gotos (snd (toolHandler name arguments w)) = (3 + gotos w)%nat
  /\ results (snd (toolHandler name arguments w)) = results w
  /\ log (snd (toolHandler name arguments w))
     = (log w
        ++ [ Goto url;
             Console LevelError ("Navigation to " ++ url ++ " failed:") (Some e1);
             TimerWait 1000;
             Console LevelWarn "Attempt 1 failed, retrying..." None;
             Goto url;
             Console LevelError ("Navigation to " ++ url ++ " failed:") (Some e2);
             TimerWait 1000;
             Console LevelWarn "Attempt 2 failed, retrying..." None;
             Goto url;
             Console LevelError ("Navigation to " ++ url ++ " failed:") (Some e3) ])%list.
Proof.
  intros Ht Hup _ Hurl H1 H2 H3.
  destruct (tool_pipeline name label tag perform Ht) as (Hp & Hcase).
  destruct (pipeline_shape tag perform (obj_get "query" arguments) Hp) as (pf & Heq).
  rewrite Hcase, Hup. unfold tool_case, withRetry. monad.
  destruct (ensured_frame w) as (Henv0 & Hg0 & Hr0 & Hl0 & _).
  pose proof (comes_up_ensured w Hup) as Hup0.
  set (w0 := ensured w) in *.
  set (w1 := stranded url e1 w0).
  set (w2 := stranded url e2 (pause 1000 1 w1)).
  set (w3 := stranded url e3 (pause 1000 2 w2)).
  destruct (stranded_frame url e1 w0) as (Henv1 & Hg1 & Hr1 & Hl1 & Hup1).
  destruct (pause_frame 1000 1 w1) as (Henvp1 & Hgp1 & Hrp1 & Hlp1 & _ & Hupp1).
  destruct (stranded_frame url e2 (pause 1000 1 w1))
    as (Henv2 & Hg2 & Hr2 & Hl2 & Hup2).
  destruct (pause_frame 1000 2 w2) as (Henvp2 & Hgp2 & Hrp2 & Hlp2 & _ & Hupp2).
  destruct (stranded_frame url e3 (pause 1000 2 w2))
    as (Henv3 & Hg3 & Hr3 & Hl3 & _).
  fold w1 in Henv1, Hg1, Hr1, Hl1, Hup1.
  fold w2 in Henv2, Hg2, Hr2, Hl2, Hup2. fold w3 in Henv3, Hg3, Hr3, Hl3.
  assert (Hrun : retry_loop (perform (obj_get "query" arguments)) 3 1000 0 w0
                 = (Thrown e3, w3)).
  { rewrite retry_loop_step, Heq, Hurl, (scrape_offline _ _ _ w0 e1 Hup0); cbn.
    - fold w1.
      rewrite retry_loop_step, Heq, Hurl,
        (scrape_offline _ _ _ (pause 1000 1 w1) e2 (Hupp1 (Hup1 Hup0))); cbn.
      + fold w2.
        rewrite retry_loop_step, Heq, Hurl,
          (scrape_offline _ _ _ (pause 1000 2 w2) e3
             (Hupp2 (Hup2 (Hupp1 (Hup1 Hup0))))); cbn.
        * reflexivity.
        * rewrite Henvp2, Hgp2, Henv2, Hg2, Henvp1, Hgp1, Henv1, Hg1, Henv0, Hg0.
          apply H3.
      + rewrite Henvp1, Hgp1, Henv1, Hg1, Henv0, Hg0. apply H2.
    - rewrite Henv0, Hg0. apply H1. }
  rewrite Hrun. cbn [fst snd]. repeat split.
  - rewrite Hg3, Hgp2, Hg2, Hgp1, Hg1, Hg0. reflexivity.
  - rewrite Hr3, Hrp2, Hr2, Hrp1, Hr1, Hr0. reflexivity.
  - rewrite Hl3, Hlp2, Hl2, Hlp1, Hl1, Hl0. rewrite <- !app_assoc. reflexivity.
Qed.

(** The HTTP endpoint calls the pipeline bare: one failed page load and the
    request is answered 500, no second attempt, no wait. *)
Lemma postSearch_does_not_retry (body : JSObject) (w : World) (tag url : string)
    (perform : JSValue -> M World (list JSObject)) (error : Error) :
  truthy (obj_get "query" body) = true ->
  obj_get "engine" body = JStr tag ->
  pipeline tag perform ->
  comes_up w ->
  search_url tag (obj_get "query" body) = Normal url ->
  web (env w) (gotos w) url = inl error ->
  postSearch body w
  = (mkResponse 500 (Some (500, FailureBody "Search failed" (message error))),
     emit (Console LevelError "Search failed:" (Some error))
       (stranded url error (set_results [] w))).
Proof.
  intros Hq He Hp Hup Hurl Hweb.
  destruct (pipeline_shape tag perform (obj_get "query" body) Hp) as (pf & Heq).
  apply (postSearch_throws body w _ error tag perform Hq He Hp).
  rewrite Heq, Hurl. apply scrape_offline.
  - apply comes_up_set_results. exact Hup.
  - exact Hweb.
Qed.

(** C2, at the HTTP endpoint.  The browser and its page come up, the query
    can be encoded, and the page load fails.  Whatever the network would
    answer to a second attempt, there is none: after the one page load the
    request is answered 500 with the message of its error, and the log
    holds the one attempt, its report, and the report of the failed search:
    no wait, no retry. *)
Theorem C2_http_navigation_is_not_retried (body : JSObject) (w : World)
    (tag url : string) (perform : JSValue -> M World (list JSObject))
    (error : Error) :
  truthy (obj_get "query" body) = true ->
  obj_get "engine" body = JStr tag ->
  pipeline tag perform ->
  comes_up w ->
  encodable (obj_get "query" body) = true ->
  search_url tag (obj_get "query" body) = Normal url ->
  web (env w) (gotos w) url = inl error ->
  received (postSearch body w)
  = Some (500, FailureBody "Search failed" (message error))
  /\ gotos (snd (postSearch body w)) = Datatypes.S (gotos w)
  /\ log (snd (postSearch body w))
     = (log w
        ++ [ Goto url;
             Console LevelError ("Navigation to " ++ url ++ " failed:") (Some error);
             Console LevelError "Search failed:" (Some error) ])%list.
Proof.
  intros Hq He Hp Hup _ Hurl Hweb.
  rewrite (postSearch_does_not_retry body w tag url perform error
             Hq He Hp Hup Hurl Hweb).
  destruct (stranded_frame url error (set_results [] w)) as (_ & Hg & _ & Hl & _).
  split; [reflexivity|]. cbn [snd]. split.
  - cbn. exact Hg.
  - cbn. cbn in Hl. rewrite Hl, <- app_assoc. reflexivity.
Qed.

(** ** The store and the ids, from one request to the next *)

(** C6, counterexample.  The store holds a record of an earlier request.
    After a tool invocation the record is still there, in front of the two
    the invocation added; after an HTTP request that fails validation it is
    still there too. *)
Lemma C6_store_is_not_always_cleared :
  results (snd (toolHandler "search_duckduckgo" [("query", JStr "rocq")]
                  (start (example_env 0 ddg_page true) [leftover])))
  = leftover
      :: stamp_all "duckduckgo" (clock (example_env 0 ddg_page true)) 0
           [ [ ("title", JStr "Rocq Prover");
               ("url", JStr "https://rocq-prover.org/");
               ("snippet", JStr "A proof assistant.") ];
             [ ("title", JStr "Install");
               ("url", JStr "https://rocq-prover.org/install");
               ("snippet", JStr "") ] ]
  /\ results (snd (postSearch [("query", JStr "rocq")]
                     (start (example_env 0 ddg_page true) [leftover])))
     = [leftover].
Proof. split; vm_compute; reflexivity. Qed.

(** Once validation has passed, what the store held before the request has
    no part in what follows. *)
Lemma postSearch_forgets_store (body : JSObject) (w : World) :
  truthy (obj_get "query" body) = true ->
  truthy (obj_get "engine" body) = true ->
  postSearch body w = postSearch body (set_results [] w).
Proof.
  intros Hq He. unfold postSearch, searchHandler. rewrite Hq, He. reflexivity.
Qed.

(** The four ways a request can go. *)
Lemma postSearch_cases (body : JSObject) (w : World) :
  (truthy (obj_get "query" body) = false \/ truthy (obj_get "engine" body) = false)
  \/ (truthy (obj_get "query" body) = true
      /\ truthy (obj_get "engine" body) = true
      /\ registered (obj_get "engine" body) = false)
  \/ (exists tag perform rows w1,
         truthy (obj_get "query" body) = true
         /\ obj_get "engine" body = JStr tag
         /\ pipeline tag perform
         /\ perform (obj_get "query" body) (set_results [] w) = (Normal rows, w1))
  \/ (exists tag perform error w1,
         truthy (obj_get "query" body) = true
         /\ obj_get "engine" body = JStr tag
         /\ pipeline tag perform
         /\ perform (obj_get "query" body) (set_results [] w) = (Thrown error, w1)).
Proof.
  destruct (truthy (obj_get "query" body)) eqn:Hq; [|auto].
  destruct (truthy (obj_get "engine" body)) eqn:He; [|auto].
  destruct (registered (obj_get "engine" body)) eqn:Hr; [|auto].
  destruct (registered_pipeline _ Hr) as (tag & perform & Heng & Hp).
  destruct (perform (obj_get "query" body) (set_results [] w))
    as [[rows|error] w1] eqn:Hrun.
  - right; right; left. exists tag, perform, rows, w1. auto.
  - right; right; right. exists tag, perform, error, w1. auto.
Qed.

(** No request changes the outside, and none hands an id back to the
    generator. *)
Lemma postSearch_frame (body : JSObject) (w : World) :
  env (snd (postSearch body w)) = env w
  /\ (uuids w <= uuids (snd (postSearch body w)))%nat.
Proof.
  destruct (postSearch_cases body w)
    as [Hbad | [(Hq & He & Hr) | [(tag & perform & rows & w1 & Hq & He & Hp & Hrun)
                                | (tag & perform & error & w1 & Hq & He & Hp & Hrun)]]].
  - rewrite (postSearch_invalid body w Hbad). cbn. split; [reflexivity | lia].
  - rewrite (postSearch_unknown body w Hq He Hr). cbn. split; [reflexivity | lia].
  - destruct (postSearch_returns_frame body w w1 rows tag perform Hq He Hp Hrun)
      as (Henv & Hu & _). rewrite Henv, Hu. split; [reflexivity | lia].
  - rewrite (postSearch_throws body w w1 error tag perform Hq He Hp Hrun).
    pose proof (pipeline_frame_any tag perform (obj_get "query" body)
                  (set_results [] w) Hp) as (Henv & Hu & _).
    rewrite Hrun in Henv, Hu. cbn in *. rewrite Henv, Hu. split; [reflexivity | lia].
Qed.

(** The tool handler draws no id. *)
Lemma toolHandler_frame (name : string) (arguments : JSObject) (w : World) :
  env (snd (toolHandler name arguments w)) = env w
  /\ uuids (snd (toolHandler name arguments w)) = uuids w.
Proof.
  pose (R := fun a b : World => env b = env a /\ uuids b = uuids a).
  assert (Rrefl : forall s, R s s) by (intros s; split; reflexivity).
  assert (Rtrans : forall a b c, R a b -> R b c -> R a c).
  { intros a b c (H1 & H2) (H3 & H4). split; congruence. }
  assert (Hcase : forall label tag perform w0,
             pipeline tag perform -> R w0 (snd (tool_case label perform arguments w0))).
  { intros label tag perform w0 Hp. unfold tool_case. monad.
    pose proof (retry_loop_invariant R
                  (perform (obj_get "query" arguments)) 3 1000 Rrefl Rtrans
                  (fun s => conj (proj1 (pipeline_frame_any tag perform _ s Hp))
                              (proj1 (proj2 (pipeline_frame_any tag perform _ s Hp))))
                  (fun k s => conj (proj1 (pause_frame 1000 k s))
                                (proj1 (proj2 (proj2 (proj2 (proj2 (pause_frame 1000 k s)))))))
                  3 0 w0 (Nat.le_refl _)) as Hloop.
    unfold withRetry.
    destruct (retry_loop _ 3 1000 0 w0) as [[rows|error] w1]; exact Hloop. }
  assert (He : R w (ensured w)).
  { destruct (ensured_frame w) as (Henv & _ & _ & _ & _ & Hu & _). split; assumption. }
  change (R w (snd (toolHandler name arguments w))).
  unfold toolHandler. monad. rewrite ensureBrowser_run.
  destruct (fst (ensureBrowser w)) as [[]|e0]; [|exact He].
  repeat match goal with
         | |- context [if ?c then _ else _] => destruct c
         end;
    try (eapply Rtrans; [exact He|]; eapply Hcase; constructor).
  exact He.
Qed.

(** As the process serves its requests the outside stays the same and the
    id generator only moves forward. *)
Lemma serves_frame (w w' : World) :
  serves w w' -> env w' = env w /\ (uuids w <= uuids w')%nat.
Proof.
  induction 1 as [w | w body w' Hlive Hrest (IHe & IHu)
                    | w name arguments w' Hlive Hrest (IHe & IHu)].
  - split; [reflexivity | lia].
  - destruct (postSearch_frame body w) as (Henv & Hu).
    split; [congruence | lia].
  - destruct (toolHandler_frame name arguments w) as (Henv & Hu).
    split; [congruence | lia].
Qed.

(** The id of a snapshot that has gone out is the one the generator gave
    next. *)
Lemma postSearch_200_id (body : JSObject) (w : World) (id : string)
    (query engine : JSValue) (records : list JSObject) :
  received (postSearch body w) = Some (200, SearchBody id query engine records) ->
  id = uuid (env w) (uuids w)
  /\ uuids (snd (postSearch body w)) = Datatypes.S (uuids w).
Proof.
  destruct (postSearch_cases body w)
    as [Hbad | [(Hq & He & Hr) | [(tag & perform & rows & w1 & Hq & He & Hp & Hrun)
                                | (tag & perform & error & w1 & Hq & He & Hp & Hrun)]]].
  - rewrite (postSearch_invalid body w Hbad). discriminate.
  - rewrite (postSearch_unknown body w Hq He Hr). discriminate.
  - destruct (postSearch_returns_frame body w w1 rows tag perform Hq He Hp Hrun)
      as (_ & Hu & _ & _ & Hrecv & _).
    rewrite Hrecv. intros Heq. inversion Heq; subst. auto.
  - rewrite (postSearch_throws body w w1 error tag perform Hq He Hp Hrun).
    discriminate.
Qed.

(** C6, as amended.  An HTTP request that passes validation starts from an
    empty store: what the store held has no part in the outcome, and the
    store afterwards holds what the pipeline run of this request appended
    and nothing else (nothing at all when the engine is not one of the
    four).  When the run returns, the snapshot that goes out, the store
    afterwards and, the disk willing, the file hold exactly the records the
    run appended, in the order of appending; the id of the snapshot is the
    next one drawn from the generator, which has then advanced by one; and
    as long as the generator does not repeat itself, no snapshot the
    process sends later, whatever it has served in between, carries that id
    again. *)
Theorem C6_http_request_resets_then_snapshots (body : JSObject) (w : World) :
  truthy (obj_get "query" body) = true ->
  truthy (obj_get "engine" body) = true ->
  postSearch body w = postSearch body (set_results [] w)
  /\ (registered (obj_get "engine" body) = false ->
      results (snd (postSearch body w)) = [])
  /\ (forall tag perform,
         obj_get "engine" body = JStr tag ->
         pipeline tag perform ->
         results (snd (postSearch body w))
         = results (snd (perform (obj_get "query" body) (set_results [] w)))
         /\ forall rows w1,
              perform (obj_get "query" body) (set_results [] w) = (Normal rows, w1) ->
              received (postSearch body w)
              = Some (200, SearchBody (uuid (env w) (uuids w)) (obj_get "query" body)
                             (JStr tag)
                             (stamp_all tag (clock (env w)) (clock_reads w) rows))
              /\ results (snd (postSearch body w))
                 = stamp_all tag (clock (env w)) (clock_reads w) rows
              /\ uuids (snd (postSearch body w)) = Datatypes.S (uuids w)
              /\ env (snd (postSearch body w)) = env w
              /\ (disk (env w) (writes w) = None ->
                  file (snd (postSearch body w))
                  = Some (SearchBody (uuid (env w) (uuids w)) (obj_get "query" body)
                            (JStr tag)
                            (stamp_all tag (clock (env w)) (clock_reads w) rows)))
              /\ ((forall m n, uuid (env w) m = uuid (env w) n -> m = n) ->
                  forall w' body' id' query' engine' records',
                    serves (snd (postSearch body w)) w' ->
                    received (postSearch body' w')
                    = Some (200, SearchBody id' query' engine' records') ->
                    id' <> uuid (env w) (uuids w))).
Proof.
  intros Hq He.
  split; [apply postSearch_forgets_store; assumption|]. split.
  - intros Hr. rewrite (postSearch_unknown body w Hq He Hr). reflexivity.
  - intros tag perform Heng Hp. split.
    + destruct (perform (obj_get "query" body) (set_results [] w))
        as [[rows|error] w1] eqn:Hrun.
      * destruct (postSearch_returns_frame body w w1 rows tag perform Hq Heng Hp Hrun)
          as (_ & _ & _ & Hres & _).
        destruct (pipeline_frame _ _ _ _ _ _ Hp Hrun) as (Hres1 & _).
        rewrite Hres. cbn in *. rewrite Hres1. reflexivity.
      * rewrite (postSearch_throws body w w1 error tag perform Hq Heng Hp Hrun).
        reflexivity.
    + intros rows w1 Hrun.
      destruct (postSearch_returns_frame body w w1 rows tag perform Hq Heng Hp Hrun)
        as (Henv & Hu & _ & Hres & Hrecv & _ & Hfile & _).
      repeat split; try assumption.
      * intros Hdisk. rewrite Hfile, Hdisk. reflexivity.
      * intros Hinj w' body' id' query' engine' records' Hserves Hrecv' Hsame.
        destruct (serves_frame _ _ Hserves) as (Henv' & Hu').
        destruct (postSearch_200_id _ _ _ _ _ _ Hrecv') as (Hid & _).
        rewrite Hid, Henv', Henv in Hsame. apply Hinj in Hsame. lia.
Qed.

(** ** The statements at work on the fixtures *)

(** C1 at work.  The network is down for two page loads: the DuckDuckGo
    pipeline under [withRetry] is invoked three times and its rows come
    out.  The network is down for three: it is invoked three times and the
    error of the third load comes out. *)
Lemma C1_withRetry_three_attempts_witness :
  (exists rows w3,
      withRetry (counting (performDuckDuckGoSearch (JStr "rocq"))) 3 1000
        (start (example_env 2 ddg_page true) [], 0%nat)
      = (Normal rows, (w3, 3%nat))
      /\ length rows = 2%nat)
  /\
  (exists w3,
      withRetry (counting (performDuckDuckGoSearch (JStr "rocq"))) 3 1000
        (start (example_env 3 ddg_page true) [], 0%nat)
      = (Thrown offline, (w3, 3%nat))).
Proof.
  pose (operation := performDuckDuckGoSearch (JStr "rocq")).
  split.
  - pose (s0 := start (example_env 2 ddg_page true) []).
    pose (s1 := snd (operation s0)).
    pose (s2 := snd (operation (pause 1000 1 s1))).
    pose (s3 := snd (operation (pause 1000 2 s2))).
    exists (map duckDuckGoRecord
              (querySelectorAll ".results_wrapper .web-results .result" ddg_page)), s3.
    split; [|reflexivity].
    apply (proj1 (C1_withRetry_three_attempts operation 1000 s0 s1 s2 s3
                    offline offline
                    ltac:(vm_compute; reflexivity) ltac:(vm_compute; reflexivity))).
    vm_compute; reflexivity.
  - pose (s0 := start (example_env 3 ddg_page true) []).
    pose (s1 := snd (operation s0)).
    pose (s2 := snd (operation (pause 1000 1 s1))).
    pose (s3 := snd (operation (pause 1000 2 s2))).
    exists s3.
    apply (proj2 (C1_withRetry_three_attempts operation 1000 s0 s1 s2 s3
                    offline offline
                    ltac:(vm_compute; reflexivity) ltac:(vm_compute; reflexivity))).
    vm_compute; reflexivity.
Defined.

(** X1 at work.  Encoding a string that holds a lone surrogate raises every
    time, so under [withRetry] with a bound of five it is tried five
    times. *)
Lemma withRetry_always_failing_witness :
  exists e w5,
    withRetry (counting (completes (encodeURIComponent lone_surrogate))) 5 1000
      (start (example_env 0 google_page true) [], 0%nat)
    = (Thrown e, (w5, 5%nat)).
Proof.
  destruct (withRetry_always_failing
              (completes (encodeURIComponent lone_surrogate)) 5 1000
              (start (example_env 0 google_page true) [])
              (fun s' => ex_intro _ _ (ex_intro _ s' eq_refl))
              ltac:(lia))
    as (e & _ & w5 & _ & Hrun).
  exists e, w5. exact Hrun.
Defined.

(** C2 at work.  The network is down for one page load and up from the
    next: the HTTP request is answered 500 after the one attempt. *)
Lemma C2_http_navigation_is_not_retried_witness :
  received (postSearch (search_request "rocq" "duckduckgo")
              (start (example_env 1 ddg_page true) []))
  = Some (500, FailureBody "Search failed" "net::ERR_INTERNET_DISCONNECTED")
  /\ log (snd (postSearch (search_request "rocq" "duckduckgo")
                 (start (example_env 1 ddg_page true) [])))
     = [ Goto "https://duckduckgo.com/?q=rocq";
         Console LevelError "Navigation to https://duckduckgo.com/?q=rocq failed:"
           (Some offline);
         Console LevelError "Search failed:" (Some offline) ]
  /\ web (example_env 1 ddg_page true) 1 "https://duckduckgo.com/?q=rocq"
     = inr ddg_page.
Proof.
  destruct (C2_http_navigation_is_not_retried (search_request "rocq" "duckduckgo")
              (start (example_env 1 ddg_page true) []) "duckduckgo"
              "https://duckduckgo.com/?q=rocq" performDuckDuckGoSearch offline
              eq_refl eq_refl pipeline_duckduckgo
              ltac:(vm_compute; reflexivity) eq_refl
              ltac:(vm_compute; reflexivity) eq_refl)
    as (Hrecv & _ & Hlog).
  split; [exact Hrecv|]. split; [exact Hlog | reflexivity].
Defined.

(** C3 at work: two results are found, the disk refuses the snapshot; the
    client has its 200 with the two records, the refusal is on the console,
    and the process has ended on what the second answer raised. *)
Lemma C3_refused_write_answers_again_witness :
  exists records,
    received (postSearch (search_request "rocq" "duckduckgo")
                (start (example_env 0 ddg_page false) [leftover]))
    = Some (200, SearchBody "id-0" (JStr "rocq") (JStr "duckduckgo") records)
    /\ length records = 2%nat
    /\ log (snd (postSearch (search_request "rocq" "duckduckgo")
                    (start (example_env 0 ddg_page false) [leftover])))
       = [ Goto "https://duckduckgo.com/?q=rocq";
           Console LevelError "Error writing to file:" (Some denied);
           Uncaught headers_sent ]
    /\ exited (snd (postSearch (search_request "rocq" "duckduckgo")
                       (start (example_env 0 ddg_page false) [leftover])))
       = Some headers_sent.
Proof.
  pose (body := search_request "rocq" "duckduckgo").
  pose (w := start (example_env 0 ddg_page false) [leftover]).
  pose (run := performDuckDuckGoSearch (JStr "rocq") (set_results [] w)).
  destruct (C3_refused_write_answers_again body w (snd run)
              (map duckDuckGoRecord
                 (querySelectorAll ".results_wrapper .web-results .result" ddg_page))
              "duckduckgo" performDuckDuckGoSearch denied
              eq_refl eq_refl pipeline_duckduckgo
              ltac:(vm_compute; reflexivity) eq_refl)
    as (Hrecv & Hlog & Hexit & _).
  eexists. split; [exact Hrecv|]. split; [reflexivity|].
  split; [exact Hlog | exact Hexit].
Defined.

(** C5 at work: on the DuckDuckGo page with two results, and on a Google
    page whose script has a global [searchResults] with a row that brings
    its own [type]. *)
Lemma C5_store_is_stamped_return_is_raw_witness :
  (exists rows w1,
      performDuckDuckGoSearch (JStr "rocq")
        (start (example_env 0 ddg_page true) [leftover])
      = (Normal rows, w1)
      /\ results w1
         = (leftover
              :: stamp_all "duckduckgo" (clock (example_env 0 ddg_page true)) 0 rows)%list)
  /\
  (exists w1,
      performGoogleSearch (JStr "rocq")
        (start (example_env 0 google_page_with_global true) [])
      = (Normal [planted], w1)
      /\ results w1
         = [ [ ("type", JStr "mine"); ("title", JStr "Planted");
               ("timestamp", JStr "2024-05-01T12:00:00.000Z") ] ]).
Proof.
  split.
  - pose (w := start (example_env 0 ddg_page true) [leftover]).
    pose (run := performDuckDuckGoSearch (JStr "rocq") w).
    assert (Hrun : run = (Normal (map duckDuckGoRecord
                                    (querySelectorAll
                                       ".results_wrapper .web-results .result" ddg_page)),
                          snd run))
      by (vm_compute; reflexivity).
    exists (map duckDuckGoRecord
              (querySelectorAll ".results_wrapper .web-results .result" ddg_page)),
      (snd run).
    split; [exact Hrun|].
    exact (proj1 (C5_store_is_stamped_return_is_raw "duckduckgo"
                    performDuckDuckGoSearch (JStr "rocq") w (snd run) _
                    pipeline_duckduckgo Hrun)).
  - pose (w := start (example_env 0 google_page_with_global true) []).
    pose (run := performGoogleSearch (JStr "rocq") w).
    assert (Hrun : run = (Normal [planted], snd run)) by (vm_compute; reflexivity).
    exists (snd run). split; [exact Hrun|].
    rewrite (proj1 (C5_store_is_stamped_return_is_raw "google"
                      performGoogleSearch (JStr "rocq") w (snd run) _
                      pipeline_google Hrun)).
    reflexivity.
Defined.

(** C6 at work: the record left in the store is not in the snapshot. *)
Lemma C6_http_request_resets_then_snapshots_witness :
  exists records,
    received (postSearch (search_request "rocq" "duckduckgo")
                (start (example_env 0 ddg_page true) [leftover]))
    = Some (200, SearchBody "id-0" (JStr "rocq") (JStr "duckduckgo") records)
    /\ map (obj_get "type") records = [JStr "duckduckgo"; JStr "duckduckgo"].
Proof.
  pose (body := search_request "rocq" "duckduckgo").
  pose (w := start (example_env 0 ddg_page true) [leftover]).
  pose (run := performDuckDuckGoSearch (JStr "rocq") (set_results [] w)).
  destruct (C6_http_request_resets_then_snapshots body w eq_refl eq_refl)
    as (_ & _ & Hrun).
  destruct (Hrun "duckduckgo" performDuckDuckGoSearch eq_refl pipeline_duckduckgo)
    as (_ & Hreturns).
  destruct (Hreturns
              (map duckDuckGoRecord
                 (querySelectorAll ".results_wrapper .web-results .result" ddg_page))
              (snd run) ltac:(vm_compute; reflexivity))
    as (Hrecv & _).
  eexists. split; [exact Hrecv|]. reflexivity.
Defined.

(** C7 at work: a body without the engine field, and a body naming an
    engine the switch does not know. *)
Lemma C7_validation_is_by_truthiness_witness :
  received (postSearch [("query", JStr "rocq")]
              (start (example_env 0 ddg_page true) []))
  = Some (400, ErrorBody "Query and engine are required")
  /\ received (postSearch (search_request "rocq" "bing")
                 (start (example_env 0 ddg_page true) []))
     = Some (400, ErrorBody "Invalid search engine").
Proof.
  split.
  - apply (proj1 (C7_validation_is_by_truthiness [("query", JStr "rocq")]
                    (start (example_env 0 ddg_page true) []))).
    right. reflexivity.
  - apply (proj1 (proj2 (C7_validation_is_by_truthiness (search_request "rocq" "bing")
                           (start (example_env 0 ddg_page true) []))));
      reflexivity.
Defined.

(** C8 at work: the page holds the result without its title and has no
    global [searchResults]; the run does not return and the store is as it
    was. *)
Lemma C8_google_extractor_yields_no_record_witness :
  exists e w1,
    performGoogleSearch (JStr "rocq")
      (start (example_env 0 google_page true) [leftover])
    = (Thrown e, w1)
    /\ results w1 = [leftover].
Proof.
  apply (proj2 (proj2 (proj2 C8_google_extractor_yields_no_record))
           (JStr "rocq") (start (example_env 0 google_page true) [leftover])).
  intros url loaded Hweb. vm_compute in Hweb. inversion Hweb. reflexivity.
Defined.

(** C10 at work: the record left in the store is gone after a request for an
    engine the switch does not know. *)
Lemma C10_unknown_engine_clears_store_witness :
  results (start (example_env 0 ddg_page true) [leftover]) = [leftover]
  /\ results (snd (postSearch (search_request "rocq" "bing")
                     (start (example_env 0 ddg_page true) [leftover])))
     = [].
Proof.
  split; [reflexivity|].
  apply (C10_unknown_engine_clears_store (search_request "rocq" "bing")
           (start (example_env 0 ddg_page true) [leftover]));
    reflexivity.
Defined.

(** * More of the code *)

(** ** [withRetry], for any integer bound *)

Lemma retry_loop_calls_bound {S A} `{Host S} (operation : M S A)
    (maxRetries delay : Z) (n : nat) :
  forall (attempt : Z) (s : S) (calls : nat),
    (Z.to_nat (maxRetries - attempt) <= n)%nat ->
    (snd (snd (retry_loop (counting operation) maxRetries delay attempt (s, calls)))
     <= calls + Z.to_nat (maxRetries - attempt))%nat.
Proof.
  induction n as [|n IH]; intros attempt s calls Hn;
    rewrite retry_loop_step, counting_run;
    destruct (Z_lt_dec attempt maxRetries) as [Hlt|Hge]; try lia;
    try (cbn; lia).
  destruct (operation s) as [[v|e] s1]; cbn [fst snd]; [lia|].
  destruct (Z.eq_dec (attempt + 1) maxRetries) as [Heq|Hne]; cbn [fst snd]; [lia|].
  rewrite pause_counting.
  specialize (IH (attempt + 1) (pause delay (attempt + 1) s1) (Datatypes.S calls)).
  lia.
Qed.

(** X2. Whatever the operation does and whatever the integer bound,
    [withRetry] invokes the operation at most [maxRetries] times, and not at
    all when the bound is zero or negative. *)
Theorem withRetry_at_most_maxRetries {S A} `{Host S} (operation : M S A)
    (maxRetries delay : Z) (s : S) :
  (snd (snd (withRetry (counting operation) maxRetries delay (s, 0%nat)))
   <= Z.to_nat maxRetries)%nat.
Proof.
  unfold withRetry.
  pose proof (retry_loop_calls_bound operation maxRetries delay
                (Z.to_nat (maxRetries - 0)) 0 s 0%nat (Nat.le_refl _)) as Hb.
  replace (maxRetries - 0) with maxRetries in Hb by lia. exact Hb.
Qed.

Lemma retry_loop_reaches {S A} `{Host S} (operation : M S A)
    (maxRetries delay : Z) (s : S) (k : nat)
    (Hfail : forall j, (j < k)%nat ->
               exists e, fst (operation (attempt_state operation delay j s)) = Thrown e) :
  Z.of_nat k < maxRetries ->
  forall j, (j <= k)%nat ->
    retry_loop (counting operation) maxRetries delay 0 (s, 0%nat)
    = retry_loop (counting operation) maxRetries delay (Z.of_nat j)
        (attempt_state operation delay j s, j).
Proof.
  intros Hk j. induction j as [|j IH]; intros Hj; [reflexivity|].
  rewrite IH by lia.
  rewrite retry_loop_step, counting_run.
  destruct (Z_lt_dec (Z.of_nat j) maxRetries) as [_|Hge]; [|lia].
  destruct (Hfail j ltac:(lia)) as (e & He). rewrite He.
  destruct (Z.eq_dec (Z.of_nat j + 1) maxRetries) as [Heq|_]; [lia|].
  rewrite pause_counting.
  replace (Z.of_nat j + 1) with (Z.of_nat (Datatypes.S j)) by lia.
  reflexivity.
Qed.

(** X3. When the first [k] invocations fail and invocation [k + 1]
    succeeds, with [k + 1] within the bound, [withRetry] returns the value of
    that invocation, in the state it left, having invoked the operation
    exactly [k + 1] times: no further wait, no further call. *)
Theorem withRetry_returns_first_success {S A} `{Host S} (operation : M S A)
    (maxRetries delay : Z) (s s1 : S) (k : nat) (v : A) :
  Z.of_nat k < maxRetries ->
  (forall j, (j < k)%nat ->
     exists e, fst (operation (attempt_state operation delay j s)) = Thrown e) ->
  operation (attempt_state operation delay k s) = (Normal v, s1) ->
  withRetry (counting operation) maxRetries delay (s, 0%nat)
  = (Normal v, (s1, Datatypes.S k)).
Proof.
  intros Hk Hfail Hok. unfold withRetry.
  rewrite (retry_loop_reaches operation maxRetries delay s k Hfail Hk k (Nat.le_refl _)).
  rewrite retry_loop_step, counting_run, Hok.
  destruct (Z_lt_dec (Z.of_nat k) maxRetries) as [_|Hge]; [reflexivity|lia].
Qed.

(** ** The HTTP endpoint, over all requests *)

(** X8. Every request to the endpoint is answered, in one of four ways: 400
    for a body that fails validation, the world untouched; 400 for an engine
    the switch does not know; 500 with the message of the error when the
    pipeline throws; 200 with the query, the engine and the records that the
    store holds when the request is over. *)
Theorem postSearch_answers_every_request (body : JSObject) (w : World) :
  (received (postSearch body w)
   = Some (400, ErrorBody "Query and engine are required")
   /\ snd (postSearch body w) = w)
  \/ received (postSearch body w) = Some (400, ErrorBody "Invalid search engine")
  \/ (exists error,
         received (postSearch body w)
         = Some (500, FailureBody "Search failed" (message error))
         /\ In (Console LevelError "Search failed:" (Some error))
              (log (snd (postSearch body w))))
  \/ (exists id,
         received (postSearch body w)
         = Some (200, SearchBody id (obj_get "query" body) (obj_get "engine" body)
                        (results (snd (postSearch body w))))).
Proof.
  destruct (postSearch_cases body w)
    as [Hbad | [(Hq & He & Hr) | [(tag & perform & rows & w1 & Hq & He & Hp & Hrun)
                                | (tag & perform & error & w1 & Hq & He & Hp & Hrun)]]].
  - left. rewrite (postSearch_invalid body w Hbad). split; reflexivity.
  - right; left. rewrite (postSearch_unknown body w Hq He Hr). reflexivity.
  - right; right; right. exists (uuid (env w) (uuids w)).
    destruct (postSearch_returns_frame body w w1 rows tag perform Hq He Hp Hrun)
      as (_ & _ & _ & Hres & Hrecv & _).
    rewrite Hrecv, Hres, He. reflexivity.
  - right; right; left. exists error.
    rewrite (postSearch_throws body w w1 error tag perform Hq He Hp Hrun).
    split; [reflexivity|]. cbn. apply in_or_app. right. left. reflexivity.
Qed.

(** X9. A request that is answered 200 has drawn exactly one id and started
    exactly one write of the snapshot file; a request answered anything else
    has drawn no id, started no write and left the file as it was. *)
Theorem postSearch_disk_and_ids (body : JSObject) (w : World) :
  ((exists payload, received (postSearch body w) = Some (200, payload))
   /\ uuids (snd (postSearch body w)) = Datatypes.S (uuids w)
   /\ writes (snd (postSearch body w)) = Datatypes.S (writes w))
  \/
  ((exists status payload,
       received (postSearch body w) = Some (status, payload) /\ status <> 200)
   /\ uuids (snd (postSearch body w)) = uuids w
   /\ writes (snd (postSearch body w)) = writes w
   /\ file (snd (postSearch body w)) = file w).
Proof.
  assert (Hne4 : 400 <> 200) by discriminate.
  assert (Hne5 : 500 <> 200) by discriminate.
  assert (Hother : forall (r : Response) (w1 : World) status payload,
             sent r = Some (status, payload) -> status <> 200 ->
             exists status payload,
               received (r, w1) = Some (status, payload) /\ status <> 200)
    by (intros; eauto).
  destruct (postSearch_cases body w)
    as [Hbad | [(Hq & He & Hr) | [(tag & perform & rows & w1 & Hq & He & Hp & Hrun)
                                | (tag & perform & error & w1 & Hq & He & Hp & Hrun)]]].
  - right. rewrite (postSearch_invalid body w Hbad). repeat split.
    eapply Hother; [reflexivity | exact Hne4].
  - right. rewrite (postSearch_unknown body w Hq He Hr). repeat split.
    eapply Hother; [reflexivity | exact Hne4].
  - left.
    destruct (postSearch_returns_frame body w w1 rows tag perform Hq He Hp Hrun)
      as (_ & Hu & _ & _ & Hrecv & Hw & _).
    split; [eexists; exact Hrecv | split; assumption].
  - right.
    pose proof (pipeline_frame_any tag perform (obj_get "query" body)
                  (set_results [] w) Hp) as (_ & Hu & Hw & Hf & _).
    rewrite Hrun in Hu, Hw, Hf. cbn [snd] in Hu, Hw, Hf.
    rewrite (postSearch_throws body w w1 error tag perform Hq He Hp Hrun).
    cbn [snd]. split; [eapply Hother; [reflexivity | exact Hne5]|].
    cbn. rewrite Hu, Hw, Hf. repeat split.
Qed.

(** X17. When the browser does not come up, because the launch is refused
    or the page cannot be opened, a request that passes validation for one
    of the four engines is answered 500 with the message of that error: no
    page load is attempted, no id drawn, no write started, and the store is
    left empty. *)
Theorem postSearch_without_browser (body : JSObject) (w : World) (tag : string)
    (perform : JSValue -> M World (list JSObject)) (error : Error) :
  truthy (obj_get "query" body) = true ->
  obj_get "engine" body = JStr tag ->
  pipeline tag perform ->
  fst (ensureBrowser w) = Thrown error ->
  received (postSearch body w)
  = Some (500, FailureBody "Search failed" (message error))
  /\ gotos (snd (postSearch body w)) = gotos w
  /\ log (snd (postSearch body w))
     = (log w ++ [Console LevelError "Search failed:" (Some error)])%list
  /\ results (snd (postSearch body w)) = []
  /\ uuids (snd (postSearch body w)) = uuids w
  /\ writes (snd (postSearch body w)) = writes w.
Proof.
  intros Hq He Hp Hdown.
  assert (Hdown' : fst (ensureBrowser (set_results [] w)) = Thrown error).
  { revert Hdown. rewrite !ensureBrowser_cases. cbn.
    destruct (browser w), (page w), (launch (env w) (launches w)),
      (newPage (env w) (newPages w)); cbn; auto. }
  rewrite (postSearch_throws body w _ error tag perform Hq He Hp
             (pipeline_no_browser tag perform _ _ error Hp Hdown')).
  destruct (ensured_frame (set_results [] w))
    as (_ & Hg & Hr & Hl & _ & Hu & Hw & _).
  cbn in *. rewrite Hg, Hr, Hl, Hu, Hw. repeat split.
Qed.

(** ** The Google pipeline, with and without the global *)

(** X10. Over HTTP, a request that passes validation and names [google] is
    answered 500 whenever the page that loads has no global
    [searchResults] (and whenever no page loads at all): the store is left
    empty, and neither an id is drawn nor the file touched. *)
Theorem http_google_fails_without_global (body : JSObject) (w : World) :
  truthy (obj_get "query" body) = true ->
  obj_get "engine" body = JStr "google" ->
  (forall url loaded,
      web (env w) (gotos w) url = inr loaded -> window_searchResults loaded = None) ->
  exists reason,
    received (postSearch body w)
    = Some (500, FailureBody "Search failed" reason)
    /\ results (snd (postSearch body w)) = []
    /\ file (snd (postSearch body w)) = file w
    /\ uuids (snd (postSearch body w)) = uuids w
    /\ writes (snd (postSearch body w)) = writes w.
Proof.
  intros Hq He Hnone.
  destruct (google_run (obj_get "query" body) (set_results [] w) Hnone)
    as (e & w1 & Hrun & Hres).
  pose proof (pipeline_frame_any "google" performGoogleSearch (obj_get "query" body)
                (set_results [] w) pipeline_google) as (_ & Hu & Hw & Hf & _).
  rewrite Hrun in Hu, Hw, Hf. cbn [snd] in Hu, Hw, Hf.
  rewrite (postSearch_throws body w w1 e "google" performGoogleSearch
             Hq He pipeline_google Hrun).
  exists (message e). cbn. cbn in Hres. rewrite Hres, Hu, Hw, Hf. repeat split.
Qed.

(** X19. With the browser up and a query that can be encoded: on a page
    whose script has a global [searchResults] holding an array, the Google
    pipeline returns, and what it returns and stamps are the elements of
    that array, whatever the result containers of the page hold. *)
Theorem google_returns_the_global (query : JSValue) (w : World) (url : string)
    (loaded : Document) (rows : list JSObject) :
  comes_up w ->
  encodable query = true ->
  search_url "google" query = Normal url ->
  web (env w) (gotos w) url = inr loaded ->
  window_searchResults loaded = Some (RArray rows) ->
  fst (performGoogleSearch query w) = Normal rows
  /\ results (snd (performGoogleSearch query w))
     = (results w ++ stamp_all "google" (clock (env w)) (clock_reads w) rows)%list.
Proof.
  intros Hup _ Hurl Hweb Hglobal.
  rewrite google_shape, scrape_run, Hup, Hurl, Hweb.
  unfold googleExtractor. rewrite Hglobal. cbn [fst snd].
  rewrite fold_add_stamped. unfold arrived, tried. cbn.
  destruct (ensured_frame w) as (-> & _ & -> & _ & -> & _).
  split; reflexivity.
Qed.

(** X7. With the browser up, the tool [search_google] comes back with a
    result flagged as an error, the store as it was, whenever no page that
    loads has a global [searchResults]: each of the attempts the retry
    policy makes ends in an error. *)
Theorem tool_search_google_fails_without_global (arguments : JSObject) (w : World) :
  comes_up w ->
  (forall n url loaded,
      web (env w) n url = inr loaded -> window_searchResults loaded = None) ->
  exists reason,
    fst (toolHandler "search_google" arguments w)
    = Normal (mkToolResult
                (PlainText ("Failed to perform Google search: " ++ reason)) true)
    /\ results (snd (toolHandler "search_google" arguments w)) = results w.
Proof.
  intros Hup Hnone.
  destruct (tool_pipeline _ _ _ _ tool_google) as (Hp & Hcase).
  rewrite Hcase, Hup. unfold tool_case, withRetry. monad.
  set (query := obj_get "query" arguments).
  destruct (ensured_frame w) as (He0 & _ & Hr0 & _).
  assert (Hstep : forall s, env s = env w ->
            exists e s1,
              performGoogleSearch query s = (Thrown e, s1)
              /\ results s1 = results s /\ env s1 = env w).
  { intros s Hs.
    destruct (google_run query s) as (e & s1 & Hrun & Hres).
    - intros url loaded. rewrite Hs. apply Hnone.
    - exists e, s1. split; [exact Hrun|]. split; [exact Hres|].
      pose proof (pipeline_frame_any "google" performGoogleSearch query s Hp)
        as (Henv & _).
      rewrite Hrun in Henv. cbn in Henv. congruence. }
  destruct (Hstep (ensured w) He0) as (e1 & w1 & Hrun1 & Hr1 & He1).
  destruct (pause_frame 1000 1 w1) as (Hep1 & _ & Hrp1 & _).
  destruct (Hstep (pause 1000 1 w1) (eq_trans Hep1 He1))
    as (e2 & w2 & Hrun2 & Hr2 & He2).
  destruct (pause_frame 1000 2 w2) as (Hep2 & _ & Hrp2 & _).
  destruct (Hstep (pause 1000 2 w2) (eq_trans Hep2 He2))
    as (e3 & w3 & Hrun3 & Hr3 & He3).
  rewrite retry_loop_step, Hrun1; cbn.
  rewrite retry_loop_step, Hrun2; cbn.
  rewrite retry_loop_step, Hrun3; cbn.
  exists (message e3). split; [reflexivity|].
  rewrite Hr3, Hrp2, Hr2, Hrp1, Hr1, Hr0. reflexivity.
Qed.

(** ** The tool handler, at its edges *)

(** X6. A tool name that is none of the four: when the browser and its
    page come up, the handler returns a result flagged as an error that
    names the tool; when they do not, the handler itself rejects, with the
    error of the launch or of the opening of the page, since
    [ensureBrowser] is awaited before the switch and outside every [try].
    Either way no page is loaded, nothing is logged, and the store is as it
    was. *)
Theorem toolHandler_unknown_tool (name : string) (arguments : JSObject) (w : World) :
  known_tool name = false ->
  toolHandler name arguments w
  = match fst (ensureBrowser w) with
    | Normal _ =>
        (Normal (mkToolResult (PlainText ("Tool " ++ name ++ " not found")) true),
         ensured w)
    | Thrown error => (Thrown error, ensured w)
    end
  /\ gotos (snd (toolHandler name arguments w)) = gotos w
  /\ log (snd (toolHandler name arguments w)) = log w
  /\ results (snd (toolHandler name arguments w)) = results w.
Proof.
  intros Hk. unfold known_tool in Hk.
  repeat (apply orb_false_iff in Hk; destruct Hk as [Hk ?]).
  assert (Hrun : toolHandler name arguments w
                 = match fst (ensureBrowser w) with
                   | Normal _ =>
                       (Normal (mkToolResult
                                  (PlainText ("Tool " ++ name ++ " not found")) true),
                        ensured w)
                   | Thrown error => (Thrown error, ensured w)
                   end).
  { unfold toolHandler. monad. rewrite ensureBrowser_run.
    destruct (fst (ensureBrowser w)) as [[]|e0]; [|reflexivity].
    repeat match goal with H : (name =? _)%string = false |- _ => rewrite H; clear H end.
    reflexivity. }
  rewrite Hrun.
  destruct (ensured_frame w) as (_ & Hg & Hr & Hl & _).
  destruct (fst (ensureBrowser w)) as [[]|e0]; cbn [snd]; repeat split; assumption.
Qed.

Lemma obj_get_missing (k : string) (o : JSObject) :
  has_own k o = false -> obj_get k o = JUndefined.
Proof.
  induction o as [|[k1 v1] rest IH]; cbn; [reflexivity|].
  destruct (k =? k1)%string; cbn; [discriminate | exact IH].
Qed.

Lemma log_extends_refl (w : World) : log_extends w w.
Proof. exists []. symmetry. apply app_nil_r. Qed.

Lemma log_extends_trans (a b c : World) :
  log_extends a b -> log_extends b c -> log_extends a c.
Proof.
  intros [x Hx] [y Hy]. exists (x ++ y)%list. rewrite Hy, Hx. symmetry. apply app_assoc.
Qed.

(** Under the retry policy the first thing on the log is the page load of
    the first attempt. *)
Lemma tool_case_first_load (label tag url : string)
    (perform : JSValue -> M World (list JSObject)) (arguments : JSObject) (w : World) :
  pipeline tag perform ->
  comes_up w ->
  search_url tag (obj_get "query" arguments) = Normal url ->
  exists rest,
    log (snd (tool_case label perform arguments w)) = (log w ++ Goto url :: rest)%list.
Proof.
  intros Hp Hup Hurl. unfold tool_case, withRetry. monad.
  set (operation := perform (obj_get "query" arguments)).
  assert (Hop : forall s, log_extends s (snd (operation s))).
  { intros s. apply (pipeline_frame_any tag perform _ s Hp). }
  assert (Hpause : forall k s, log_extends s (pause 1000 k s)).
  { intros k s. eexists. exact (proj1 (proj2 (proj2 (proj2 (pause_frame 1000 k s))))). }
  assert (Hloop : log_extends (snd (operation w))
                    (snd (retry_loop operation 3 1000 0 w))).
  { rewrite retry_loop_step. destruct (Z_lt_dec 0 3) as [_|Hge]; [|lia].
    destruct (operation w) as [[rows|error] w1]; cbn [snd].
    - apply log_extends_refl.
    - destruct (Z.eq_dec (0 + 1) 3) as [Heq3|_]; [lia|].
      eapply log_extends_trans; [apply Hpause|].
      apply (retry_loop_invariant log_extends operation 3 1000
               log_extends_refl log_extends_trans Hop Hpause 3 (0 + 1) _ ltac:(lia)). }
  destruct (pipeline_navigates tag perform (obj_get "query" arguments) w url
              Hp Hup Hurl) as (_ & first & Hlog).
  fold operation in Hlog.
  destruct Hloop as [more Hmore].
  assert (Hfinal : exists rest,
             log (snd (retry_loop operation 3 1000 0 w))
             = (log w ++ Goto url :: rest)%list).
  { eexists. rewrite Hmore, Hlog, <- app_assoc. cbn [app]. reflexivity. }
  destruct (retry_loop operation 3 1000 0 w) as [[rows|error] w3]; exact Hfinal.
Qed.

(** X14. The tool handler does not check its arguments: when [query] is
    missing from them and the browser comes up, the search still runs, for
    the word [undefined]. *)
Theorem tool_missing_query_searches_undefined (arguments : JSObject) (w : World) :
  has_own "query" arguments = false ->
  comes_up w ->
  (exists rest,
      log (snd (toolHandler "search_google" arguments w))
      = (log w ++ Goto "https://www.google.com/search?q=undefined" :: rest)%list)
  /\ (exists rest,
         log (snd (toolHandler "search_duckduckgo" arguments w))
         = (log w ++ Goto "https://duckduckgo.com/?q=undefined" :: rest)%list)
  /\ (exists rest,
         log (snd (toolHandler "search_youtube" arguments w))
         = (log w
            ++ Goto "https://www.youtube.com/results?search_query=undefined"
               :: rest)%list)
  /\ (exists rest,
         log (snd (toolHandler "search_pubmed" arguments w))
         = (log w
            ++ Goto ("https://pubmed.ncbi.nlm.nih.gov/?term=undefined"
                     ++ pubmed_filter_encoded) :: rest)%list).
Proof.
  intros Hmissing Hup. apply obj_get_missing in Hmissing.
  destruct (ensured_frame w) as (_ & _ & _ & Hlog & _).
  pose proof (comes_up_ensured w Hup) as Hup0.
  rewrite <- Hlog.
  repeat split;
    match goal with
    | |- context [toolHandler ?name] =>
        match goal with
        | |- context [Goto ?url] =>
            let Ht := fresh in
            eassert (Ht : tool name _ _ _) by constructor;
            destruct (tool_pipeline _ _ _ _ Ht) as (Hp & Hcase);
            rewrite Hcase, Hup;
            apply (tool_case_first_load _ _ url _ arguments (ensured w) Hp Hup0);
            rewrite Hmissing; vm_compute; reflexivity
        end
    end.
Qed.

(** ** A page on which nothing matches *)

(** X11. With the browser up and a query that can be encoded: when the
    page that loads holds no element for the container selector of the
    engine (DuckDuckGo, YouTube or PubMed), the run is a success with no
    rows, not an error: nothing is added to the store, the clock is not
    read, and the log shows the one page load. *)
Theorem no_container_is_an_empty_success (tag selector url : string)
    (perform : JSValue -> M World (list JSObject))
    (query : JSValue) (w : World) (loaded : Document) :
  mapping_pipeline tag perform selector ->
  comes_up w ->
  encodable query = true ->
  search_url tag query = Normal url ->
  web (env w) (gotos w) url = inr loaded ->
  querySelectorAll selector loaded = [] ->
  fst (perform query w) = Normal []
  /\ results (snd (perform query w)) = results w
  /\ clock_reads (snd (perform query w)) = clock_reads w
  /\ log (snd (perform query w)) = (log w ++ [Goto url])%list.
Proof.
  intros Hm Hup _ Hurl Hweb Hnone.
  destruct (mapping_pipeline_shape tag selector perform query Hm)
    as (extractor & _ & Heq & Hrows).
  rewrite Heq, scrape_run, Hup, Hurl, Hweb.
  destruct (ensured_frame w) as (_ & _ & Hres & Hlog & Hclock & _).
  unfold array_of. destruct (Hrows loaded) as (make & Hex & _).
  rewrite Hex, Hnone. unfold arrived, tried. cbn.
  rewrite Hres, Hlog, Hclock. repeat split.
Qed.

(** ** The search URLs *)

Lemma string_app_assoc (a b c : string) : ((a ++ b) ++ c = a ++ (b ++ c))%string.
Proof. induction a as [|ch a IH]; cbn; [reflexivity|]. rewrite IH. reflexivity. Qed.

Lemma percent_encode_app (a b : string) :
  percent_encode (a ++ b) = percent_encode a ++ percent_encode b.
Proof.
  induction a as [|ch a IH]; cbn [percent_encode String.append]; [reflexivity|].
  rewrite IH. symmetry. apply string_app_assoc.
Qed.

Lemma list_ascii_of_string_app (a b : string) :
  list_ascii_of_string (a ++ b)
  = (list_ascii_of_string a ++ list_ascii_of_string b)%list.
Proof. induction a as [|ch a IH]; cbn; [reflexivity|]. rewrite IH. reflexivity. Qed.

(** Bytes below 128 are characters of their own. *)
Lemma well_formed_from_ascii (m : list nat) :
  forallb (fun b => (b <? 128)%nat) m = true ->
  forall lo hi, well_formed_from 0 lo hi m = true.
Proof.
  induction m as [|b m IH]; intros Hm lo hi; [reflexivity|].
  cbn [forallb] in Hm. apply andb_true_iff in Hm. destruct Hm as (Hb & Hm).
  cbn [well_formed_from Nat.eqb]. rewrite Hb. apply IH. exact Hm.
Qed.

(** Bytes below 128 put behind a string leave it as well formed as it
    was. *)
Lemma well_formed_from_app (m : list nat) :
  forallb (fun b => (b <? 128)%nat) m = true ->
  forall l pending lo hi,
    (128 <= lo)%nat ->
    well_formed_from pending lo hi (l ++ m) = well_formed_from pending lo hi l.
Proof.
  intros Hm. induction l as [|b l IH]; intros pending lo hi Hlo.
  - cbn [app]. destruct pending as [|pending].
    + apply well_formed_from_ascii. exact Hm.
    + destruct m as [|c m]; [reflexivity|].
      cbn [forallb] in Hm. apply andb_true_iff in Hm. destruct Hm as (Hc & _).
      apply Nat.ltb_lt in Hc.
      cbn [well_formed_from Nat.eqb].
      replace (lo <=? c)%nat with false
        by (symmetry; apply Nat.leb_gt; lia).
      reflexivity.
  - cbn [app well_formed_from].
    repeat match goal with
           | |- context [if ?c then _ else _] => destruct c
           end;
      try reflexivity; apply IH; lia.
Qed.

Lemma well_formed_app_ascii (a b : string) :
  forallb (fun c => (nat_of_ascii c <? 128)%nat) (list_ascii_of_string b) = true ->
  well_formed (a ++ b) = well_formed a.
Proof.
  intros Hb. unfold well_formed.
  rewrite list_ascii_of_string_app, map_app.
  apply well_formed_from_app; [|lia].
  rewrite forallb_forall in *. intros n Hin. apply in_map_iff in Hin.
  destruct Hin as (c & <- & Hin). apply Hb. exact Hin.
Qed.

(** The search URL of each pipeline for a query that can be encoded. *)
Lemma search_url_encoded (query : JSValue) :
  well_formed (ToString query) = true ->
  search_url "google" query
  = Normal ("https://www.google.com/search?q=" ++ percent_encode (ToString query))
  /\ search_url "duckduckgo" query
     = Normal ("https://duckduckgo.com/?q=" ++ percent_encode (ToString query))
  /\ search_url "youtube" query
     = Normal ("https://www.youtube.com/results?search_query="
               ++ percent_encode (ToString query))
  /\ search_url "pubmed" query
     = Normal ("https://pubmed.ncbi.nlm.nih.gov/?term="
               ++ percent_encode (ToString query) ++ pubmed_filter_encoded).
Proof.
  intros Hwf. unfold search_url, address, encodeURIComponent.
  cbn [String.eqb Ascii.eqb Bool.eqb].
  rewrite Hwf, well_formed_app_ascii, Hwf by (vm_compute; reflexivity).
  rewrite percent_encode_app. repeat split.
Qed.

(** The search URL of no pipeline can be put together for a query that
    holds a lone surrogate. *)
Lemma search_url_malformed (tag : string)
    (perform : JSValue -> M World (list JSObject)) (query : JSValue) :
  pipeline tag perform ->
  well_formed (ToString query) = false ->
  search_url tag query = Thrown (mkError "URIError" "URI malformed").
Proof.
  intros Hp Hwf. unfold search_url, address, encodeURIComponent.
  destruct Hp; cbn [String.eqb Ascii.eqb Bool.eqb];
    rewrite ?well_formed_app_ascii by (vm_compute; reflexivity);
    rewrite Hwf; reflexivity.
Qed.

(** X12. With the browser up and a query that can be encoded, each run of
    a pipeline makes exactly one page load, first thing, and to this
    address: the base of the engine followed by the query with every byte
    that is not unreserved percent-encoded; for PubMed the query is
    followed, inside the same parameter, by [ AND ] and the
    publication-type filter, encoded with it.  A query that is not a string
    goes in as JavaScript prints it. *)
Theorem pipelines_navigate_to (query : JSValue) (w : World) :
  comes_up w ->
  encodable query = true ->
  (gotos (snd (performGoogleSearch query w)) = Datatypes.S (gotos w)
   /\ exists rest,
        log (snd (performGoogleSearch query w))
        = (log w
           ++ Goto ("https://www.google.com/search?q="
                    ++ percent_encode (ToString query)) :: rest)%list)
  /\ (gotos (snd (performDuckDuckGoSearch query w)) = Datatypes.S (gotos w)
      /\ exists rest,
           log (snd (performDuckDuckGoSearch query w))
           = (log w
              ++ Goto ("https://duckduckgo.com/?q="
                       ++ percent_encode (ToString query)) :: rest)%list)
  /\ (gotos (snd (performYouTubeSearch query w)) = Datatypes.S (gotos w)
      /\ exists rest,
           log (snd (performYouTubeSearch query w))
           = (log w
              ++ Goto ("https://www.youtube.com/results?search_query="
                       ++ percent_encode (ToString query)) :: rest)%list)
  /\ (gotos (snd (performPubMedSearch query w)) = Datatypes.S (gotos w)
      /\ exists rest,
           log (snd (performPubMedSearch query w))
           = (log w
              ++ Goto ("https://pubmed.ncbi.nlm.nih.gov/?term="
                       ++ percent_encode (ToString query)
                       ++ pubmed_filter_encoded) :: rest)%list).
Proof.
  intros Hup Hq. unfold encodable in Hq. apply andb_true_iff in Hq.
  destruct Hq as (Hwf & _).
  destruct (search_url_encoded query Hwf) as (Hg & Hd & Hy & Hm).
  repeat split;
    first [ eapply pipeline_navigates; [constructor | exact Hup | eassumption]
          | eapply (proj2 (pipeline_navigates _ _ _ _ _ ltac:(constructor) Hup
                             ltac:(eassumption))) ].
Qed.

(** X18. A query whose string form holds a lone surrogate cannot be
    encoded: with the browser up, the run of any of the four pipelines
    ends on the [URIError] that [encodeURIComponent] raises, before any
    page load; nothing is logged and the store is as it was. *)
Theorem malformed_query_ends_before_navigation (tag : string)
    (perform : JSValue -> M World (list JSObject)) (query : JSValue) (w : World) :
  pipeline tag perform ->
  comes_up w ->
  well_formed (ToString query) = false ->
  fst (perform query w) = Thrown (mkError "URIError" "URI malformed")
  /\ gotos (snd (perform query w)) = gotos w
  /\ log (snd (perform query w)) = log w
  /\ results (snd (perform query w)) = results w.
Proof.
  intros Hp Hup Hwf.
  destruct (pipeline_shape tag perform query Hp) as (pf & Heq).
  rewrite Heq, scrape_run, Hup, (search_url_malformed tag perform query Hp Hwf).
  destruct (ensured_frame w) as (_ & Hg & Hr & Hl & _).
  cbn [fst snd]. auto.
Qed.

(** ** [ensureBrowser] *)

(** X13. [ensureBrowser] launches and opens only what is missing, and
    keeps what it has got.  Once it has returned, the browser and the page
    are there and the next call changes nothing; a call that finds both in
    place leaves the world as it was and asks nothing of the outside.  When
    the launch is refused the call rejects with that error, the browser
    stays unset and the page untouched, so that the next call launches
    again. *)
Theorem ensureBrowser_idempotent (w : World) :
  (comes_up w ->
   browser (ensured w) = true /\ page (ensured w) = true
   /\ ensureBrowser (ensured w) = (Normal tt, ensured w))
  /\ (browser w = true -> page w = true -> ensureBrowser w = (Normal tt, w))
  /\ (page w = true -> document (ensured w) = document w)
  /\ (forall error,
         browser w = false ->
         launch (env w) (launches w) = Some error ->
         fst (ensureBrowser w) = Thrown error
         /\ browser (ensured w) = false
         /\ page (ensured w) = page w
         /\ launches (ensured w) = Datatypes.S (launches w)
         /\ newPages (ensured w) = newPages w).
Proof.
  split; [apply comes_up_ready|]. split; [apply ready_comes_up|]. split.
  - intros Hp. unfold ensured. rewrite ensureBrowser_cases, Hp.
    destruct (browser w), (launch (env w) (launches w)); reflexivity.
  - intros error Hb Hl. unfold ensured. rewrite ensureBrowser_cases, Hb, Hl.
    cbn. rewrite Hb. repeat split.
Qed.

(** ** One request after another *)

(** X16. Two HTTP requests in a row whose pipeline runs return, the write
    of the first snapshot not being refused, so that the process is there
    for the second: the second answer carries the next id of the generator
    and the records of the second run only, stamped with the clock readings
    that follow those the first run used; nothing of the first batch is in
    it. *)
Theorem postSearch_twice (body1 body2 : JSObject) (w w1 w2 : World)
    (rows1 rows2 : list JSObject) (tag1 tag2 : string)
    (perform1 perform2 : JSValue -> M World (list JSObject)) :
  truthy (obj_get "query" body1) = true ->
  obj_get "engine" body1 = JStr tag1 ->
  pipeline tag1 perform1 ->
  perform1 (obj_get "query" body1) (set_results [] w) = (Normal rows1, w1) ->
  disk (env w) (writes w) = None ->
  truthy (obj_get "query" body2) = true ->
  obj_get "engine" body2 = JStr tag2 ->
  pipeline tag2 perform2 ->
  perform2 (obj_get "query" body2) (set_results [] (snd (postSearch body1 w)))
  = (Normal rows2, w2) ->
  exited (snd (postSearch body1 w)) = exited w
  /\ received (postSearch body2 (snd (postSearch body1 w)))
     = Some (200,
             SearchBody (uuid (env w) (Datatypes.S (uuids w)))
               (obj_get "query" body2) (JStr tag2)
               (stamp_all tag2 (clock (env w)) (clock_reads w + length rows1) rows2))
  /\ results (snd (postSearch body2 (snd (postSearch body1 w))))
     = stamp_all tag2 (clock (env w)) (clock_reads w + length rows1) rows2.
Proof.
  intros Hq1 He1 Hp1 Hrun1 Hdisk Hq2 He2 Hp2 Hrun2.
  destruct (postSearch_returns_frame body1 w w1 rows1 tag1 perform1
              Hq1 He1 Hp1 Hrun1)
    as (Henv & Huuid & Hclock & _ & _ & _ & _ & Hexit & _).
  destruct (postSearch_returns_frame body2 (snd (postSearch body1 w)) w2 rows2
              tag2 perform2 Hq2 He2 Hp2 Hrun2) as (_ & _ & _ & Hres & Hrecv & _).
  rewrite Henv, Hclock in Hres. rewrite Henv, Huuid, Hclock in Hrecv.
  rewrite Hdisk in Hexit. auto.
Qed.

(** ** Looking a stamped record up *)

(** X15. Stamping a row looks up as follows: [timestamp] is the reading of
    the clock, whatever the row held under that name; every field the row
    has comes out as the row has it; and [type] is the engine tag for a row
    that has no [type] of its own, since the tag is written first and the
    fields of the row over it. *)
Theorem stamped_lookup (tag timestamp : string) (row : JSObject) (k : string) :
  NoDup (map fst row) ->
  obj_get k (stamped tag timestamp row)
  = if (k =? "timestamp")%string then JStr timestamp
    else if has_own k row then obj_get k row
    else if (k =? "type")%string then JStr tag
    else JUndefined.
Proof.
  intros Hnd. unfold stamped. rewrite obj_get_set.
  destruct (k =? "timestamp")%string; [reflexivity|].
  rewrite (obj_get_spread k row Hnd). cbn [obj_get].
  destruct (has_own k row); reflexivity.
Qed.

(** ** These statements at work on the fixtures *)

(** X3 at work: the bound is five, the network is down for two page loads;
    the third invocation returns the two rows and there is no fourth. *)
Lemma withRetry_returns_first_success_witness :
  exists rows w3,
    withRetry (counting (performDuckDuckGoSearch (JStr "rocq"))) 5 1000
      (start (example_env 2 ddg_page true) [], 0%nat)
    = (Normal rows, (w3, 3%nat))
    /\ length rows = 2%nat.
Proof.
  pose (operation := performDuckDuckGoSearch (JStr "rocq")).
  pose (s := start (example_env 2 ddg_page true) []).
  exists (map duckDuckGoRecord
            (querySelectorAll ".results_wrapper .web-results .result" ddg_page)),
    (snd (operation (attempt_state operation 1000 2 s))).
  split; [|reflexivity].
  apply (withRetry_returns_first_success operation 5 1000 s _ 2).
  - reflexivity.
  - intros j Hj. destruct j as [|[|j]].
    + exists offline. vm_compute. reflexivity.
    + exists offline. vm_compute. reflexivity.
    + exfalso. lia.
  - vm_compute. reflexivity.
Defined.

(** X4 at work: the network is down for three page loads, and the tool
    [search_duckduckgo] reports the failure after the third. *)
Lemma toolHandler_retries_navigation_witness :
  fst (toolHandler "search_duckduckgo" [("query", JStr "rocq")]
         (start (example_env 3 ddg_page true) []))
  = Normal (mkToolResult
              (PlainText
                 "Failed to perform DuckDuckGo search: net::ERR_INTERNET_DISCONNECTED")
              true)
  /\ gotos (snd (toolHandler "search_duckduckgo" [("query", JStr "rocq")]
                   (start (example_env 3 ddg_page true) [])))
     = 3%nat.
Proof.
  destruct (toolHandler_retries_navigation "search_duckduckgo" "DuckDuckGo"
              "duckduckgo" "https://duckduckgo.com/?q=rocq"
              performDuckDuckGoSearch [("query", JStr "rocq")]
              (start (example_env 3 ddg_page true) []) offline offline offline
              tool_duckduckgo ltac:(vm_compute; reflexivity) eq_refl
              ltac:(vm_compute; reflexivity) eq_refl eq_refl eq_refl)
    as (Hres & Hgotos & _).
  split; [exact Hres | exact Hgotos].
Defined.

(** X6 at work: with a browser that comes up, and with one that refuses
    the launch. *)
Lemma toolHandler_unknown_tool_witness :
  toolHandler "search_bing" [("query", JStr "rocq")]
    (start (example_env 0 ddg_page true) [leftover])
  = (Normal (mkToolResult (PlainText "Tool search_bing not found") true),
     ensured (start (example_env 0 ddg_page true) [leftover]))
  /\ fst (toolHandler "search_bing" [("query", JStr "rocq")]
            (start (without_browser (example_env 0 ddg_page true)) [leftover]))
     = Thrown headless_refused.
Proof.
  split.
  - exact (proj1 (toolHandler_unknown_tool "search_bing" [("query", JStr "rocq")]
                    (start (example_env 0 ddg_page true) [leftover]) eq_refl)).
  - rewrite (proj1 (toolHandler_unknown_tool "search_bing" [("query", JStr "rocq")]
                      (start (without_browser (example_env 0 ddg_page true)) [leftover])
                      eq_refl)).
    reflexivity.
Defined.

(** X7 at work: the page holds a Google result and no global. *)
Lemma tool_search_google_fails_without_global_witness :
  exists reason,
    fst (toolHandler "search_google" [("query", JStr "rocq")]
           (start (example_env 0 google_page true) [leftover]))
    = Normal (mkToolResult
                (PlainText ("Failed to perform Google search: " ++ reason)) true)
    /\ results (snd (toolHandler "search_google" [("query", JStr "rocq")]
                       (start (example_env 0 google_page true) [leftover])))
       = [leftover].
Proof.
  apply (tool_search_google_fails_without_global [("query", JStr "rocq")]
           (start (example_env 0 google_page true) [leftover])).
  - vm_compute. reflexivity.
  - intros n url loaded Hweb. vm_compute in Hweb. inversion Hweb. reflexivity.
Defined.

(** X10 at work: the page holds a Google result and no global, and the
    answer is a 500. *)
Lemma http_google_fails_without_global_witness :
  exists reason,
    received (postSearch (search_request "rocq" "google")
                (start (example_env 0 google_page true) [leftover]))
    = Some (500, FailureBody "Search failed" reason).
Proof.
  destruct (http_google_fails_without_global (search_request "rocq" "google")
              (start (example_env 0 google_page true) [leftover]) eq_refl eq_refl)
    as (reason & Hrecv & _).
  - intros url loaded Hweb. vm_compute in Hweb. inversion Hweb. reflexivity.
  - exists reason. exact Hrecv.
Defined.

(** X11 at work: DuckDuckGo answers with a page that has none of the
    expected containers. *)
Lemma no_container_is_an_empty_success_witness :
  fst (performDuckDuckGoSearch (JStr "rocq")
         (start (example_env 0 google_page true) [leftover]))
  = Normal []
  /\ results (snd (performDuckDuckGoSearch (JStr "rocq")
                     (start (example_env 0 google_page true) [leftover])))
     = [leftover].
Proof.
  destruct (no_container_is_an_empty_success "duckduckgo"
              ".results_wrapper .web-results .result"
              "https://duckduckgo.com/?q=rocq" performDuckDuckGoSearch (JStr "rocq")
              (start (example_env 0 google_page true) [leftover]) google_page
              mapping_duckduckgo ltac:(vm_compute; reflexivity) eq_refl
              ltac:(vm_compute; reflexivity) eq_refl eq_refl)
    as (Hrows & Hstore & _).
  split; [exact Hrows | exact Hstore].
Defined.

(** X12 at work: a query of two words, for YouTube. *)
Lemma pipelines_navigate_to_witness :
  exists rest,
    log (snd (performYouTubeSearch (JStr "rocq prover")
                (start (example_env 0 ddg_page true) [])))
    = Goto "https://www.youtube.com/results?search_query=rocq%20prover" :: rest.
Proof.
  exact (proj2 (proj1 (proj2 (proj2
           (pipelines_navigate_to (JStr "rocq prover")
              (start (example_env 0 ddg_page true) [])
              ltac:(vm_compute; reflexivity) eq_refl))))).
Defined.

(** X13 at work: the first call launches and opens, and a launch that is
    refused leaves the browser unset. *)
Lemma ensureBrowser_idempotent_witness :
  browser (ensured (start (example_env 0 ddg_page true) [])) = true
  /\ fst (ensureBrowser (start (without_browser (example_env 0 ddg_page true)) []))
     = Thrown headless_refused.
Proof.
  split.
  - apply (proj1 (ensureBrowser_idempotent (start (example_env 0 ddg_page true) []))).
    vm_compute. reflexivity.
  - apply (proj2 (proj2 (proj2 (ensureBrowser_idempotent
                                  (start (without_browser (example_env 0 ddg_page true)) []))))
             headless_refused eq_refl eq_refl).
Defined.

(** X14 at work: the arguments are empty. *)
Lemma tool_missing_query_searches_undefined_witness :
  exists rest,
    log (snd (toolHandler "search_duckduckgo" []
                (start (example_env 0 ddg_page true) [])))
    = Goto "https://duckduckgo.com/?q=undefined" :: rest.
Proof.
  exact (proj1 (proj2 (tool_missing_query_searches_undefined []
                         (start (example_env 0 ddg_page true) []) eq_refl
                         ltac:(vm_compute; reflexivity)))).
Defined.

(** X15 at work: a row as an extractor makes it, and a row that brings a
    [type] of its own. *)
Lemma stamped_lookup_witness :
  obj_get "type" (stamped "youtube" "2024-05-01T12:00:00.000Z"
                    [("title", JStr "Talk"); ("url", JStr ""); ("snippet", JStr "")])
  = JStr "youtube"
  /\ obj_get "type" (stamped "youtube" "2024-05-01T12:00:00.000Z"
                       [("type", JStr "mine"); ("title", JStr "Talk")])
     = JStr "mine".
Proof.
  split.
  - rewrite stamped_lookup; [reflexivity|].
    repeat constructor; cbn; intuition discriminate.
  - rewrite stamped_lookup; [reflexivity|].
    repeat constructor; cbn; intuition discriminate.
Defined.

(** X16 at work: a YouTube-looking record is in the store, then two
    DuckDuckGo requests follow each other. *)
Lemma postSearch_twice_witness :
  exists records,
    received (postSearch (search_request "install" "duckduckgo")
                (snd (postSearch (search_request "rocq" "duckduckgo")
                        (start (example_env 0 ddg_page true) [leftover]))))
    = Some (200, SearchBody "id-1" (JStr "install") (JStr "duckduckgo") records)
    /\ map (obj_get "timestamp") records
       = [JStr "2024-05-01T12:00:02.000Z"; JStr "2024-05-01T12:00:03.000Z"].
Proof.
  pose (w := start (example_env 0 ddg_page true) [leftover]).
  pose (body1 := search_request "rocq" "duckduckgo").
  pose (body2 := search_request "install" "duckduckgo").
  pose (rows := map duckDuckGoRecord
                  (querySelectorAll ".results_wrapper .web-results .result" ddg_page)).
  pose (run1 := performDuckDuckGoSearch (JStr "rocq") (set_results [] w)).
  pose (run2 := performDuckDuckGoSearch (JStr "install")
                  (set_results [] (snd (postSearch body1 w)))).
  destruct (postSearch_twice body1 body2 w (snd run1) (snd run2) rows rows
              "duckduckgo" "duckduckgo"
              performDuckDuckGoSearch performDuckDuckGoSearch
              eq_refl eq_refl pipeline_duckduckgo ltac:(vm_compute; reflexivity)
              eq_refl
              eq_refl eq_refl pipeline_duckduckgo ltac:(vm_compute; reflexivity))
    as (_ & Hrecv & _).
  eexists. split; [exact Hrecv|]. reflexivity.
Defined.

(** X17 at work: the browser refuses the launch options, and the request
    is answered 500 with what the launch said. *)
Lemma postSearch_without_browser_witness :
  received (postSearch (search_request "rocq" "duckduckgo")
              (start (without_browser (example_env 0 ddg_page true)) []))
  = Some (500, FailureBody "Search failed"
                 "browserType.launch: headless: expected boolean, got string")
  /\ gotos (snd (postSearch (search_request "rocq" "duckduckgo")
                   (start (without_browser (example_env 0 ddg_page true)) [])))
     = 0%nat.
Proof.
  destruct (postSearch_without_browser (search_request "rocq" "duckduckgo")
              (start (without_browser (example_env 0 ddg_page true)) [])
              "duckduckgo" performDuckDuckGoSearch headless_refused
              eq_refl eq_refl pipeline_duckduckgo eq_refl)
    as (Hrecv & Hgotos & _).
  split; [exact Hrecv | exact Hgotos].
Defined.

(** X18 at work: the query is a lone surrogate. *)
Lemma malformed_query_ends_before_navigation_witness :
  fst (performPubMedSearch (JStr lone_surrogate)
         (start (example_env 0 ddg_page true) []))
  = Thrown (mkError "URIError" "URI malformed")
  /\ log (snd (performPubMedSearch (JStr lone_surrogate)
                 (start (example_env 0 ddg_page true) [])))
     = [].
Proof.
  destruct (malformed_query_ends_before_navigation "pubmed" performPubMedSearch
              (JStr lone_surrogate) (start (example_env 0 ddg_page true) [])
              pipeline_pubmed ltac:(vm_compute; reflexivity)
              ltac:(vm_compute; reflexivity))
    as (Hthrown & _ & Hlog & _).
  split; [exact Hthrown | exact Hlog].
Defined.

(** X19 at work: the page has the result without its title, and a global
    with one row; the row of the global is what comes back. *)
Lemma google_returns_the_global_witness :
  fst (performGoogleSearch (JStr "rocq")
         (start (example_env 0 google_page_with_global true) []))
  = Normal [planted].
Proof.
  apply (google_returns_the_global (JStr "rocq")
           (start (example_env 0 google_page_with_global true) [])
           "https://www.google.com/search?q=rocq" google_page_with_global [planted]);
    vm_compute; reflexivity.
Defined.

